(** * OTP entry widget (src/App.tsx): shallow embedding and verified properties

    The component keeps three pieces of React state (digits, selection,
    loading) and drives them from the events of one hidden text field, the
    taps on the boxes and on the row, the submit button, the awaited
    submission and the refocus timer.  Every handler of App.tsx is a
    function on an explicit state record; the effect of lines 28-30 is
    re-run after each handler the way React re-runs an effect whose
    dependency list changed. *)

From Stdlib Require Import ZArith Ascii String Lia.
From stdpp Require Import base numbers list strings.

Local Open Scope Z_scope.

(** ** JavaScript values used by the component *)

(** An element of the digits array: Some s is the string s, None is
    undefined (what reading a hole or an index past the end yields). *)
Abbreviation slot := (option string).

(** Truthiness of a string, and of an array element. *)
Definition truthy_str (s : string) : bool :=
  match s with
  | EmptyString => false
  | String _ _ => true
  end.

Definition truthy (x : slot) : bool :=
  match x with
  | Some s => truthy_str s
  | None => false
  end.

(** a[i] *)
Definition array_get (a : list slot) (i : Z) : slot :=
  if decide (0 ≤ i) then default None (a !! Z.to_nat i) else None.

(** a[i] = v on a copy of a.  Inside the array the element is replaced;
    past the end JavaScript grows the array and leaves holes; a negative
    index only adds a property to the object, which no element read,
    join, includes, map or spread ever sees. *)
Definition array_set (i : Z) (v : slot) (a : list slot) : list slot :=
  if decide (i < 0) then a
  else if decide (i < Z.of_nat (length a)) then <[Z.to_nat i := v]> a
  else a ++ replicate (Z.to_nat i - length a)%nat None ++ [v].

(** a.join with the empty separator: undefined joins as the empty string. *)
Fixpoint join (a : list slot) : string :=
  match a with
  | [] => EmptyString
  | x :: r => default EmptyString x +:+ join r
  end.

(** a.includes(v) *)
Definition includes (v : slot) (a : list slot) : bool :=
  existsb (λ x, bool_decide (x = v)) a.

(** Math.max(0, Math.min(OTP_LENGTH, x)) *)
Definition OTP_LENGTH : Z := 6.

Definition clamp (x : Z) : Z := Z.max 0 (Z.min OTP_LENGTH x).

(** ** sanitize (line 44) *)

(** \d is the ASCII class 0-9. *)
Definition is_digit (c : ascii) : bool :=
  (48 <=? nat_of_ascii c)%nat && (nat_of_ascii c <=? 57)%nat.

(** raw.replace(/\D/g, empty) *)
Fixpoint strip_non_digits (raw : string) : string :=
  match raw with
  | EmptyString => EmptyString
  | String c r =>
      if is_digit c then String c (strip_non_digits r) else strip_non_digits r
  end.

(** The replace above followed by .slice(0, 1). *)
Definition sanitize (raw : string) : string :=
  substring 0 1 (strip_non_digits raw).

(** ** Component state *)

Record Sel := mkSel { start : Z; end_ : Z }.

(** digits, selection and loading are the three useState cells.  The other
    fields are what the handlers act on outside React state: the focus of
    the hidden field (focus() and Keyboard.dismiss()), the alerts raised so
    far (newest first), the handleSubmit calls suspended at their await
    (each with the value its closure captured), the refocus callbacks
    scheduled by setTimeout(..., 50), and the dependency pair the effect
    last ran with. *)
Record AppState := mkState {
  digits : list slot;
  selection : Sel;
  loading : bool;
  focused : bool;
  alerts : list string;
  inflight : list string;
  timers : nat;
  deps : bool * bool
}.

Definition setDigits (d : list slot) (s : AppState) : AppState :=
  mkState d (selection s) (loading s) (focused s) (alerts s) (inflight s)
          (timers s) (deps s).

Definition setSelection (x : Sel) (s : AppState) : AppState :=
  mkState (digits s) x (loading s) (focused s) (alerts s) (inflight s)
          (timers s) (deps s).

Definition setLoading (b : bool) (s : AppState) : AppState :=
  mkState (digits s) (selection s) b (focused s) (alerts s) (inflight s)
          (timers s) (deps s).

Definition setFocused (b : bool) (s : AppState) : AppState :=
  mkState (digits s) (selection s) (loading s) b (alerts s) (inflight s)
          (timers s) (deps s).

Definition alert (msg : string) (s : AppState) : AppState :=
  mkState (digits s) (selection s) (loading s) (focused s) (msg :: alerts s)
          (inflight s) (timers s) (deps s).

Definition setInflight (l : list string) (s : AppState) : AppState :=
  mkState (digits s) (selection s) (loading s) (focused s) (alerts s) l
          (timers s) (deps s).

Definition setTimers (n : nat) (s : AppState) : AppState :=
  mkState (digits s) (selection s) (loading s) (focused s) (alerts s)
          (inflight s) n (deps s).

Definition setDeps (d : bool * bool) (s : AppState) : AppState :=
  mkState (digits s) (selection s) (loading s) (focused s) (alerts s)
          (inflight s) (timers s) d.

(** Array(OTP_LENGTH) filled with the empty string. *)
Definition empty_digits : list slot :=
  replicate (Z.to_nat OTP_LENGTH) (Some EmptyString).

(** Lines 25-26. *)
Definition value (s : AppState) : string := join (digits s).

Definition isComplete (s : AppState) : bool :=
  (Z.of_nat (String.length (value s)) =? OTP_LENGTH)
  && negb (includes (Some EmptyString) (digits s)).

(** State after mount: the effect has run once, with isComplete false. *)
Definition initial_state : AppState :=
  mkState empty_digits (mkSel 0 0) false false [] [] 0%nat (false, false).

(** ** Handlers *)

(** focusInput (lines 32-42). *)
Definition focusInput (pos : option Z) (selectOne : bool) (s : AppState)
  : AppState :=
  let s1 := setFocused true s in
  match pos with
  | Some p =>
      let clamped := clamp p in
      if selectOne && truthy (array_get (digits s) clamped)
      then setSelection (mkSel clamped (clamped + 1)) s1
      else setSelection (mkSel clamped clamped) s1
  | None => s1
  end.

(** handleSelectionChange (lines 46-56). *)
Definition handleSelectionChange (rawStart rawEnd : Z) (s : AppState)
  : AppState :=
  if loading s then s
  else setSelection (mkSel (clamp rawStart) (clamp rawEnd)) s.

(** handleChangeText (lines 58-68). *)
Definition handleChangeText (nextText : string) (s : AppState) : AppState :=
  if loading s then s
  else
    let clean := sanitize nextText in
    if truthy_str clean && (start (selection s) <? OTP_LENGTH)
    then
      let updated := array_set (start (selection s)) (Some clean) (digits s) in
      let nextPos := Z.min (start (selection s) + 1) (OTP_LENGTH - 1) in
      setSelection (mkSel nextPos nextPos) (setDigits updated s)
    else s.

(** handleKeyPress (lines 70-79). *)
Definition handleKeyPress (key : string) (s : AppState) : AppState :=
  if loading s then s
  else if bool_decide (key = "Backspace"%string)
  then
    if (0 <=? start (selection s)) && (start (selection s) <? OTP_LENGTH)
    then setDigits (array_set (start (selection s)) (Some EmptyString) (digits s)) s
    else s
  else s.

(** handleBoxPress (lines 81-84). *)
Definition handleBoxPress (index : Z) (s : AppState) : AppState :=
  if loading s then s else focusInput (Some index) true s.

(** The row's onPress (line 112). *)
Definition handleRowPress (s : AppState) : AppState :=
  focusInput (Some (start (selection s))) false s.

(** handleSubmit (lines 86-103) runs in three pieces.  The first runs up to
    the await: loading is set, the keyboard is dismissed and the call is
    suspended with the value of the render that made it. *)
Definition handleSubmit_begin (s : AppState) : AppState :=
  setInflight (inflight s ++ [value s]) (setFocused false (setLoading true s)).

Definition success_message (v : string) : string :=
  "Submitted code: " +:+ v.

Definition failure_message : string :=
  "Submission failed. Please try again.".

(** The second piece runs when the awaited operation settles: the rest of
    the try block when it resolved, the catch block when it threw, and the
    finally block in both cases. *)
Definition handleSubmit_resume (resolved : bool) (v : string) (s : AppState)
  : AppState :=
  let s1 :=
    if resolved
    then setSelection (mkSel 0 0)
           (setDigits empty_digits (alert (success_message v) s))
    else alert failure_message s in
  let s2 := setLoading false s1 in
  setTimers (S (timers s2)) s2.

(** The third piece is the callback given to setTimeout in the finally
    block (lines 98-101). *)
Definition refocus_callback (s : AppState) : AppState :=
  setSelection (mkSel 0 0) (setFocused true s).

(** ** Events and the update cycle *)

Inductive event :=
| ChangeText (nextText : string)
| KeyPress (key : string)
| SelectionChange (rawStart rawEnd : Z)
| BoxPress (index : Z)
| RowPress
| SubmitPress
| SubmissionSettles (resolved : bool)
| RefocusTimer.

(** The submit button is rendered only when not loading and is disabled
    once the code is complete (lines 157-171). *)
Definition dispatch (e : event) (s : AppState) : AppState :=
  match e with
  | ChangeText t => handleChangeText t s
  | KeyPress k => handleKeyPress k s
  | SelectionChange a b => handleSelectionChange a b s
  | BoxPress i => handleBoxPress i s
  | RowPress => handleRowPress s
  | SubmitPress =>
      if loading s || isComplete s then s else handleSubmit_begin s
  | SubmissionSettles ok =>
      match inflight s with
      | [] => s
      | v :: rest => handleSubmit_resume ok v (setInflight rest s)
      end
  | RefocusTimer =>
      match timers s with
      | O => s
      | S n => refocus_callback (setTimers n s)
      end
  end.

(** The effect of lines 28-30. *)
Definition effect_body (s : AppState) : AppState :=
  if isComplete s && negb (loading s) then handleSubmit_begin s else s.

(** After a render React runs the effect when [isComplete, loading]
    differs from the pair of the previous run. *)
Definition run_effect (s : AppState) : AppState :=
  let d := (isComplete s, loading s) in
  if decide (d = deps s) then s else effect_body (setDeps d s).

(** One update cycle: the handler, the render and its effect, and the
    render the effect itself causes when it sets loading. *)
Definition step (e : event) (s : AppState) : AppState :=
  run_effect (run_effect (dispatch e s)).

Definition run (es : list event) (s : AppState) : AppState :=
  foldl (λ st e, step e st) s es.

(** A state as React leaves it at the end of a cycle: the effect has seen
    the current dependencies. *)
Definition settled (s : AppState) : Prop :=
  deps s = (isComplete s, loading s).

(** ** Invariants *)

Definition digit_or_empty (x : slot) : Prop :=
  x = Some EmptyString
  ∨ ∃ c, is_digit c = true ∧ x = Some (String c EmptyString).

Definition buffer_ok (d : list slot) : Prop :=
  length d = 6%nat ∧ Forall digit_or_empty d.

Definition sel_bounded (x : Sel) : Prop :=
  0 ≤ start x ≤ 6 ∧ 0 ≤ end_ x ≤ 6.

Definition sel_ordered (x : Sel) : Prop :=
  0 ≤ start x ∧ start x ≤ end_ x ∧ end_ x ≤ 6.

Definition all_empty (d : list slot) : Prop :=
  d = replicate 6 (Some EmptyString).

(** The helper of the repository's test file: move the caret to a box, then
    type one character. *)
Definition typeDigitAt (i : Z) (d : string) : list event :=
  [SelectionChange i i; ChangeText d].

Definition type_all_six : list event :=
  typeDigitAt 0 "1" ++ typeDigitAt 1 "2" ++ typeDigitAt 2 "3" ++
  typeDigitAt 3 "4" ++ typeDigitAt 4 "5" ++ typeDigitAt 5 "6".

(** sanitize as the specification words it: drop every character that is
    not a digit, keep at most the first of those left. *)
Definition sanitize_spec (raw : string) : string :=
  string_of_list_ascii (take 1 (List.filter is_digit (list_ascii_of_string raw))).

(** ** What the component renders *)

(** The text of a box (line 130): d || " ". *)
Definition boxText (d : slot) : string :=
  if truthy d then default EmptyString d else " ".

(** The conditional styles of a box (lines 121-126). *)
Record boxStyle := mkStyle {
  boxFilled : bool;
  boxDisabled : bool;
  boxCaret : bool
}.

Definition renderBox (s : AppState) (i : nat) (d : slot) : boxStyle * string :=
  (mkStyle (truthy d) (loading s)
           (bool_decide (start (selection s) = Z.of_nat i) && negb (loading s)),
   boxText d).

(** digits.map((d, i) => ...) (lines 116-133). *)
Definition renderBoxes (s : AppState) : list (boxStyle * string) :=
  imap (renderBox s) (digits s).

(** The submit slot (lines 156-172): the loading row, or the button with
    its hidden style and its disabled flag. *)
Inductive submitSlot :=
| LoadingRow
| SubmitButton (hidden disabled : bool).

Definition renderSubmitSlot (s : AppState) : submitSlot :=
  if loading s then LoadingRow
  else SubmitButton (isComplete s) (isComplete s || loading s).

(** ** Helpers of the test file *)

Definition backspaceAt (i : Z) : list event :=
  [SelectionChange i i; KeyPress "Backspace"].

(** expectBoxToEqual: for each expected ch at index i, the text of box i
    must be ch || " "; a box that is not rendered fails the lookup. *)
Definition expectBoxToEqual (arr : list string) (s : AppState) : bool :=
  forallb id
    (imap (λ i ch, bool_decide ((snd <$> renderBoxes s) !! i
                                = Some (if truthy_str ch then ch else " "%string)))
          arr).

(** A run of typeDigitAt calls, one per (index, text) pair. *)
Definition typeAll (ws : list (Z * string)) : list event :=
  ws ≫= (λ w, typeDigitAt w.1 w.2).

(** One key stroke per character, with no selection event between them. *)
Definition typeKeys (cs : list ascii) : list event :=
  (λ c, ChangeText (String c EmptyString)) <$> cs.

(** ** Further invariants *)

(** loading is set exactly while one handleSubmit call is suspended. *)
Definition submission_inv (s : AppState) : Prop :=
  (loading s = true ∧ ∃ v, inflight s = [v])
  ∨ (loading s = false ∧ inflight s = []).

Definition filled (d : list slot) : Prop := Forall (λ x, truthy x = true) d.

Definition all_digits (v : string) : Prop :=
  Forall (λ c, is_digit c = true) (list_ascii_of_string v).

(** While loading, the one suspended call carries the value now shown. *)
Definition submission_tracks_value (s : AppState) : Prop :=
  (loading s = true ∧ inflight s = [value s])
  ∨ (loading s = false ∧ inflight s = []).

(** The buffer after a list of (index, text) writes, applied in order. *)
Definition applyWrites (ws : list (Z * string)) (d : list slot) : list slot :=
  foldl (λ acc w, <[Z.to_nat w.1 := Some (sanitize w.2)]> acc) d ws.

Definition valid_write (w : Z * string) : Prop :=
  0 ≤ w.1 < 6 ∧ sanitize w.2 ≠ EmptyString.

(** A code made of at most six digit characters. *)
Definition digit_code (v : string) : Prop :=
  all_digits v ∧ (String.length v ≤ 6)%nat.

(** An alert the component can raise: the failure text, or the success
    text quoting a code. *)
Definition known_alert (a : string) : Prop :=
  a = failure_message ∨ ∃ v, a = success_message v ∧ digit_code v.

(** The state with the end of its selection replaced. *)
Definition with_end (y : Z) (s : AppState) : AppState :=
  setSelection (mkSel (start (selection s)) y) s.

(** * Properties *)

(** ** Projections through the setters *)

Ltac unfold_setters :=
  unfold setDigits, setSelection, setLoading, setFocused, alert, setInflight,
    setTimers, setDeps in *; cbn [digits selection loading focused alerts
    inflight timers deps start end_] in *.

Lemma isComplete_digits (s t : AppState) :
  digits s = digits t → isComplete s = isComplete t.
Proof. unfold isComplete, value. by intros ->. Qed.

Lemma handleSubmit_begin_digits s : digits (handleSubmit_begin s) = digits s.
Proof. reflexivity. Qed.

Lemma handleSubmit_begin_selection s :
  selection (handleSubmit_begin s) = selection s.
Proof. reflexivity. Qed.

Lemma effect_body_digits s : digits (effect_body s) = digits s.
Proof. unfold effect_body. by destruct (_ && _). Qed.

Lemma effect_body_selection s : selection (effect_body s) = selection s.
Proof. unfold effect_body. by destruct (_ && _). Qed.

Lemma run_effect_digits s : digits (run_effect s) = digits s.
Proof.
  unfold run_effect. case_decide; [done|]. by rewrite effect_body_digits.
Qed.

Lemma run_effect_selection s : selection (run_effect s) = selection s.
Proof.
  unfold run_effect. case_decide; [done|]. by rewrite effect_body_selection.
Qed.

Lemma step_digits e s : digits (step e s) = digits (dispatch e s).
Proof. unfold step. by rewrite !run_effect_digits. Qed.

Lemma step_selection e s : selection (step e s) = selection (dispatch e s).
Proof. unfold step. by rewrite !run_effect_selection. Qed.

(** ** The array write *)

Section ArraySet.
Context (a : list slot) (i : Z) (v : slot).

Lemma array_set_negative : i < 0 → array_set i v a = a.
Proof. intros H. unfold array_set. by rewrite decide_True. Qed.

Lemma array_set_inside :
  0 ≤ i < Z.of_nat (length a) → array_set i v a = <[Z.to_nat i := v]> a.
Proof.
  intros H. unfold array_set.
  rewrite decide_False by lia. rewrite decide_True by lia. done.
Qed.

Lemma array_set_length :
  i < Z.of_nat (length a) → length (array_set i v a) = length a.
Proof.
  intros H. destruct (decide (i < 0)).
  - by rewrite array_set_negative.
  - rewrite array_set_inside by lia. apply length_insert.
Qed.

Lemma array_set_lookup_eq :
  0 ≤ i < Z.of_nat (length a) → array_set i v a !! Z.to_nat i = Some v.
Proof.
  intros H. rewrite array_set_inside by done.
  apply list_lookup_insert_eq. lia.
Qed.

Lemma array_set_lookup_ne (j : nat) :
  i < Z.of_nat (length a) → j ≠ Z.to_nat i →
  array_set i v a !! j = a !! j.
Proof.
  intros H Hj. destruct (decide (i < 0)).
  - by rewrite array_set_negative.
  - rewrite array_set_inside by lia. by apply list_lookup_insert_ne.
Qed.

Lemma array_set_Forall (P : slot → Prop) :
  i < Z.of_nat (length a) → P v → Forall P a → Forall P (array_set i v a).
Proof.
  intros H Hv Ha. destruct (decide (i < 0)).
  - by rewrite array_set_negative.
  - rewrite array_set_inside by lia. by apply Forall_insert.
Qed.
End ArraySet.

(** ** sanitize *)

Lemma strip_non_digits_filter raw :
  strip_non_digits raw
  = string_of_list_ascii (List.filter is_digit (list_ascii_of_string raw)).
Proof.
  induction raw as [|c r IH]; [done|].
  cbn [strip_non_digits list_ascii_of_string List.filter].
  destruct (is_digit c); cbn [string_of_list_ascii]; by rewrite IH.
Qed.

Lemma strip_non_digits_head raw :
  strip_non_digits raw = EmptyString
  ∨ ∃ c r, is_digit c = true ∧ strip_non_digits raw = String c r.
Proof.
  induction raw as [|c r IH]; [by left|].
  cbn [strip_non_digits]. destruct (is_digit c) eqn:Hc; [|done].
  right. by exists c, (strip_non_digits r).
Qed.

Lemma sanitize_cases raw :
  sanitize raw = EmptyString
  ∨ ∃ c, is_digit c = true ∧ sanitize raw = String c EmptyString.
Proof.
  unfold sanitize.
  destruct (strip_non_digits_head raw) as [->|(c & r & Hc & ->)]; [by left|].
  right. exists c. split; [done|]. by destruct r.
Qed.

Lemma sanitize_digit_or_empty raw : digit_or_empty (Some (sanitize raw)).
Proof.
  destruct (sanitize_cases raw) as [->|(c & Hc & ->)]; [by left|].
  right. by exists c.
Qed.

Lemma sanitize_refines_spec raw : sanitize raw = sanitize_spec raw.
Proof.
  unfold sanitize, sanitize_spec. rewrite strip_non_digits_filter.
  destruct (List.filter is_digit (list_ascii_of_string raw)) as [|c l]; [done|].
  cbn [string_of_list_ascii take]. by destruct (string_of_list_ascii l).
Qed.

Lemma sanitize_non_digit c :
  is_digit c = false → sanitize (String c EmptyString) = EmptyString.
Proof. intros H. unfold sanitize. cbn [strip_non_digits]. by rewrite H. Qed.

(** ** The buffer invariant *)

Lemma empty_digits_ok : buffer_ok empty_digits.
Proof. split; [done|]. repeat constructor; by left. Qed.

Lemma buffer_ok_array_set d i v :
  buffer_ok d → i < OTP_LENGTH → digit_or_empty v → buffer_ok (array_set i v d).
Proof.
  intros [Hlen Hall] Hi Hv. unfold OTP_LENGTH in Hi. split.
  - rewrite array_set_length; [done | lia].
  - apply array_set_Forall; [lia | done | done].
Qed.

Lemma handleChangeText_buffer_ok t s :
  buffer_ok (digits s) → buffer_ok (digits (handleChangeText t s)).
Proof.
  intros H. unfold handleChangeText.
  destruct (loading s); [done|].
  destruct (truthy_str _ && _) eqn:Hg; [|done].
  apply andb_true_iff in Hg as [_ Hlt%Z.ltb_lt].
  unfold_setters. apply buffer_ok_array_set; [done | done |].
  apply sanitize_digit_or_empty.
Qed.

Lemma handleKeyPress_buffer_ok k s :
  buffer_ok (digits s) → buffer_ok (digits (handleKeyPress k s)).
Proof.
  intros H. unfold handleKeyPress.
  destruct (loading s); [done|].
  case_bool_decide; [|done].
  destruct (_ && _) eqn:Hg; [|done].
  apply andb_true_iff in Hg as [_ Hlt%Z.ltb_lt].
  unfold_setters. apply buffer_ok_array_set; [done | done | by left].
Qed.

Lemma focusInput_digits pos one s : digits (focusInput pos one s) = digits s.
Proof.
  unfold focusInput. destruct pos; [|done]. by destruct (_ && _).
Qed.

Lemma dispatch_buffer_ok e s :
  buffer_ok (digits s) → buffer_ok (digits (dispatch e s)).
Proof.
  intros H. destruct e as [t|k|a b|i| | |ok|]; cbn [dispatch].
  - by apply handleChangeText_buffer_ok.
  - by apply handleKeyPress_buffer_ok.
  - unfold handleSelectionChange. by destruct (loading s).
  - unfold handleBoxPress. destruct (loading s); [done|].
    by rewrite focusInput_digits.
  - unfold handleRowPress. by rewrite focusInput_digits.
  - by destruct (_ || _).
  - destruct (inflight s); [done|].
    unfold handleSubmit_resume. destruct ok; unfold_setters; [|done].
    apply empty_digits_ok.
  - by destruct (timers s).
Qed.

(** C7.  The buffer holds exactly six slots, each the empty string or one
    digit character, in the state the component mounts with, and every
    update cycle (any event, its handler and the effect that follows)
    keeps it so; in particular the length never changes. *)
Theorem buffer_invariant :
  buffer_ok (digits initial_state)
  ∧ (∀ e s, buffer_ok (digits s) → buffer_ok (digits (step e s)))
  ∧ (∀ es, buffer_ok (digits (run es initial_state))).
Proof.
  assert (Hstep : ∀ e s, buffer_ok (digits s) → buffer_ok (digits (step e s))).
  { intros e s H. rewrite step_digits. by apply dispatch_buffer_ok. }
  split; [apply empty_digits_ok|]. split; [done|].
  intros es. unfold run.
  assert (Hgen : ∀ s, buffer_ok (digits s) →
            buffer_ok (digits (foldl (λ st e, step e st) s es))).
  { induction es as [|e es IH]; intros s Hs; [done|].
    cbn [foldl]. apply IH. by apply Hstep. }
  apply Hgen, empty_digits_ok.
Qed.

Lemma buffer_invariant_witness :
  buffer_ok (digits initial_state)
  ∧ buffer_ok (digits (step (ChangeText "7") initial_state)).
Proof.
  split.
  - split; [reflexivity | repeat constructor; left; reflexivity].
  - apply (proj1 (proj2 buffer_invariant) (ChangeText "7") initial_state).
    split; [reflexivity | repeat constructor; left; reflexivity].
Defined.

(** ** Text entry *)

(** C5.  handleChangeText computes clean = sanitize raw, which is raw with
    every non-digit removed and cut to its first character.  When clean is
    not empty and selection.start < 6 (and the status is not Submitting) the
    buffer becomes the buffer with clean written at selection.start, so for
    a caret inside the six-slot buffer that slot reads clean and every other
    slot is as before, and the selection becomes the collapsed caret at
    min(start+1, 5).  When clean is empty nothing changes; typing one
    non-digit character therefore leaves the whole buffer as it was. *)
Theorem handleChangeText_spec (raw : string) (s : AppState) :
  let clean := sanitize raw in
  let p := start (selection s) in
  clean = sanitize_spec raw
  ∧ (loading s = false → clean ≠ EmptyString → p < 6 →
       digits (handleChangeText raw s) = array_set p (Some clean) (digits s)
       ∧ selection (handleChangeText raw s)
         = mkSel (Z.min (p + 1) 5) (Z.min (p + 1) 5)
       ∧ (0 ≤ p → length (digits s) = 6%nat →
            digits (handleChangeText raw s) !! Z.to_nat p = Some (Some clean)
            ∧ length (digits (handleChangeText raw s)) = 6%nat
            ∧ ∀ j, j ≠ Z.to_nat p →
                digits (handleChangeText raw s) !! j = digits s !! j))
  ∧ (clean = EmptyString → handleChangeText raw s = s)
  ∧ (∀ c, is_digit c = false → handleChangeText (String c EmptyString) s = s).
Proof.
  intros clean p. split; [apply sanitize_refines_spec|].
  split; [|split].
  - intros Hl Hc Hp. unfold handleChangeText. rewrite Hl.
    fold clean. fold p.
    assert (truthy_str clean = true) as -> by (by destruct clean).
    assert ((p <? OTP_LENGTH) = true) as -> by (apply Z.ltb_lt; done).
    cbn [andb]. unfold_setters.
    split; [done|]. split; [done|].
    intros H0 Hlen. split; [|split].
    + apply array_set_lookup_eq. lia.
    + rewrite array_set_length; [done | lia].
    + intros j Hj. apply array_set_lookup_ne; [lia | done].
  - intros Hc. unfold handleChangeText. fold clean. rewrite Hc.
    by destruct (loading s).
  - intros c Hc. unfold handleChangeText. rewrite (sanitize_non_digit c Hc).
    by destruct (loading s).
Qed.

Lemma handleChangeText_spec_witness :
  digits (handleChangeText "x4y9" (setSelection (mkSel 2 2) initial_state))
  = [Some EmptyString; Some EmptyString; Some "4"%string;
     Some EmptyString; Some EmptyString; Some EmptyString]
  ∧ selection (handleChangeText "x4y9" (setSelection (mkSel 2 2) initial_state))
    = mkSel 3 3.
Proof.
  pose proof (handleChangeText_spec "x4y9"
                (setSelection (mkSel 2 2) initial_state)) as H.
  cbv zeta in H. destruct H as (_ & H & _).
  destruct H as (Hd & Hs & _);
    [reflexivity | discriminate | vm_compute; reflexivity |].
  split; [rewrite Hd; reflexivity | rewrite Hs; reflexivity].
Defined.

(** ** Backspace *)

(** C6.  For a six-slot buffer and a selection whose start is one of the
    indices 0..5, the Backspace key press (when the status is not
    Submitting) leaves the empty string in the slot at selection.start;
    every other slot keeps its value at its own index, the buffer keeps its
    length, and the selection is the same. *)
Theorem backspace_clears_only_target (s : AppState) :
  length (digits s) = 6%nat →
  0 ≤ start (selection s) < 6 →
  loading s = false →
  let s' := handleKeyPress "Backspace" s in
  digits s' !! Z.to_nat (start (selection s)) = Some (Some EmptyString)
  ∧ (∀ j, j ≠ Z.to_nat (start (selection s)) → digits s' !! j = digits s !! j)
  ∧ length (digits s') = length (digits s)
  ∧ selection s' = selection s.
Proof.
  intros Hlen Hp Hl s'. subst s'. unfold handleKeyPress. rewrite Hl.
  rewrite bool_decide_eq_true_2 by done.
  assert ((0 <=? start (selection s)) = true) as -> by (apply Z.leb_le; lia).
  assert ((start (selection s) <? OTP_LENGTH) = true) as ->
    by (apply Z.ltb_lt; unfold OTP_LENGTH; lia).
  cbn [andb]. unfold_setters. split; [|split; [|split]].
  - apply array_set_lookup_eq. lia.
  - intros j Hj. apply array_set_lookup_ne; [lia | done].
  - apply array_set_length. lia.
  - done.
Qed.

Lemma backspace_clears_only_target_witness :
  digits (handleKeyPress "Backspace"
            (run (typeDigitAt 0 "1" ++ typeDigitAt 1 "2" ++ typeDigitAt 2 "3"
                  ++ [SelectionChange 1 1]) initial_state))
  !! 1%nat = Some (Some EmptyString).
Proof.
  apply (backspace_clears_only_target
           (run (typeDigitAt 0 "1" ++ typeDigitAt 1 "2" ++ typeDigitAt 2 "3"
                 ++ [SelectionChange 1 1]) initial_state));
    [reflexivity | vm_compute; split; [discriminate | reflexivity] | reflexivity].
Defined.

(** ** Tapping a box *)

Lemma array_get_lookup (d : list slot) (i : Z) (x : slot) :
  0 ≤ i → d !! Z.to_nat i = Some x → array_get d i = x.
Proof.
  intros Hi Hx. unfold array_get. rewrite decide_True by done. by rewrite Hx.
Qed.

Lemma clamp_inside (x : Z) : 0 ≤ x ≤ 6 → clamp x = x.
Proof. unfold clamp, OTP_LENGTH. lia. Qed.

(** C9.  For an index i in 0..5 and any buffer, tapping box i (when the
    status is not Submitting) sets the selection to (i, i+1) when slot i
    holds a non-empty string and to the collapsed caret (i, i) when it holds
    the empty string; after a tap on a filled slot the next digit typed is
    written at index i. *)
Theorem focusBox_selection (i : Z) (s : AppState) :
  0 ≤ i < 6 →
  loading s = false →
  (∀ x, digits s !! Z.to_nat i = Some (Some x) → x ≠ EmptyString →
     selection (handleBoxPress i s) = mkSel i (i + 1)
     ∧ ∀ raw, sanitize raw ≠ EmptyString →
         digits (handleChangeText raw (handleBoxPress i s))
         = array_set i (Some (sanitize raw)) (digits s))
  ∧ (digits s !! Z.to_nat i = Some (Some EmptyString) →
     selection (handleBoxPress i s) = mkSel i i)
  ∧ selection (handleBoxPress i s)
    = (if truthy (array_get (digits s) i) then mkSel i (i + 1) else mkSel i i).
Proof.
  intros Hi Hl.
  assert (Hsel : selection (handleBoxPress i s)
    = (if truthy (array_get (digits s) i) then mkSel i (i + 1) else mkSel i i)).
  { unfold handleBoxPress, focusInput. rewrite Hl.
    rewrite clamp_inside by lia. cbn [andb].
    by destruct (truthy (array_get (digits s) i)). }
  split; [|split; [|done]].
  - intros x Hx Hne. rewrite Hsel, (array_get_lookup _ _ _ (proj1 Hi) Hx).
    assert (truthy (Some x) = true) as -> by (by destruct x).
    split; [done|]. intros raw Hraw.
    unfold handleChangeText.
    assert (Hl' : loading (handleBoxPress i s) = false).
    { unfold handleBoxPress, focusInput. rewrite Hl.
      by destruct (_ && _). }
    assert (Hd' : digits (handleBoxPress i s) = digits s).
    { unfold handleBoxPress. rewrite Hl. apply focusInput_digits. }
    assert (Hs' : start (selection (handleBoxPress i s)) = i).
    { rewrite Hsel, (array_get_lookup _ _ _ (proj1 Hi) Hx).
      by destruct x. }
    rewrite Hl', Hs', Hd'.
    assert (truthy_str (sanitize raw) = true) as ->
      by (by destruct (sanitize raw)).
    assert ((i <? OTP_LENGTH) = true) as ->
      by (apply Z.ltb_lt; unfold OTP_LENGTH; lia).
    cbn [andb]. by unfold_setters.
  - intros Hx. by rewrite Hsel, (array_get_lookup _ _ _ (proj1 Hi) Hx).
Qed.

Lemma focusBox_selection_witness :
  selection (handleBoxPress 1
               (run (typeDigitAt 0 "1" ++ typeDigitAt 1 "9") initial_state))
  = mkSel 1 2
  ∧ selection (handleBoxPress 4
               (run (typeDigitAt 0 "1" ++ typeDigitAt 1 "9") initial_state))
  = mkSel 4 4.
Proof.
  split.
  - refine (proj1 (proj1 (focusBox_selection 1
             (run (typeDigitAt 0 "1" ++ typeDigitAt 1 "9") initial_state)
             _ _) "9"%string _ _));
      [vm_compute; split; [discriminate | reflexivity] | reflexivity | reflexivity
      | discriminate].
  - refine (proj1 (proj2 (focusBox_selection 4
             (run (typeDigitAt 0 "1" ++ typeDigitAt 1 "9") initial_state)
             _ _)) _);
      [vm_compute; split; [discriminate | reflexivity] | reflexivity | reflexivity].
Defined.

(** ** Writes stay inside the buffer *)

(** C10.  When selection.start is 6 or more, a key press (Backspace or any
    other key) and a text change (any text) return the state they were
    given, so nothing is written; and for every selection value at all,
    negative ones included, both handlers return a buffer of the same six
    slots' length: the branch of the array write that would grow the array
    is never taken. *)
Theorem no_write_outside_slots (s : AppState) :
  (6 ≤ start (selection s) →
     (∀ key, handleKeyPress key s = s) ∧ (∀ raw, handleChangeText raw s = s))
  ∧ (length (digits s) = 6%nat →
     ∀ key raw,
       length (digits (handleKeyPress key s)) = 6%nat
       ∧ length (digits (handleChangeText raw s)) = 6%nat).
Proof.
  split.
  - intros Hp.
    assert ((start (selection s) <? OTP_LENGTH) = false) as Hlt
      by (apply Z.ltb_ge; unfold OTP_LENGTH; lia).
    split.
    + intros key. unfold handleKeyPress. rewrite Hlt, andb_false_r.
      destruct (loading s); [done|]. by case_bool_decide.
    + intros raw. unfold handleChangeText. rewrite Hlt, andb_false_r.
      by destruct (loading s).
  - intros Hlen key raw. split.
    + unfold handleKeyPress. destruct (loading s); [done|].
      case_bool_decide; [|done]. destruct (_ && _) eqn:Hg; [|done].
      apply andb_true_iff in Hg as [_ Hlt%Z.ltb_lt]. unfold OTP_LENGTH in Hlt.
      unfold_setters. rewrite array_set_length; [done | lia].
    + unfold handleChangeText. destruct (loading s); [done|].
      destruct (_ && _) eqn:Hg; [|done].
      apply andb_true_iff in Hg as [_ Hlt%Z.ltb_lt]. unfold OTP_LENGTH in Hlt.
      unfold_setters. rewrite array_set_length; [done | lia].
Qed.

Lemma no_write_outside_slots_witness :
  handleKeyPress "Backspace" (setSelection (mkSel 6 6) initial_state)
  = setSelection (mkSel 6 6) initial_state
  ∧ handleChangeText "5" (setSelection (mkSel 6 6) initial_state)
    = setSelection (mkSel 6 6) initial_state
  ∧ length (digits (handleChangeText "5"
                      (setSelection (mkSel (-3) (-3)) initial_state))) = 6%nat.
Proof.
  split; [|split].
  - apply (proj1 (no_write_outside_slots (setSelection (mkSel 6 6) initial_state)));
      vm_compute; discriminate.
  - apply (proj1 (no_write_outside_slots (setSelection (mkSel 6 6) initial_state)));
      vm_compute; discriminate.
  - apply (proj2 (no_write_outside_slots
                    (setSelection (mkSel (-3) (-3)) initial_state)));
      [reflexivity | exact "Backspace"%string].
Defined.

(** ** The selection *)

Lemma clamp_range (x : Z) : 0 ≤ clamp x ≤ 6.
Proof. unfold clamp, OTP_LENGTH. lia. Qed.

Lemma clamp_mono (x y : Z) : x ≤ y → clamp x ≤ clamp y.
Proof. unfold clamp, OTP_LENGTH. lia. Qed.

Lemma truthy_array_get_lt (d : list slot) (i : Z) :
  truthy (array_get d i) = true → i < Z.of_nat (length d).
Proof.
  unfold array_get. case_decide as Hi; [|done].
  destruct (d !! Z.to_nat i) eqn:Hd; [|done].
  intros _. apply lookup_lt_Some in Hd. lia.
Qed.

Lemma focusInput_sel_ordered (p : Z) (one : bool) (s : AppState) :
  length (digits s) = 6%nat →
  sel_ordered (selection (focusInput (Some p) one s)).
Proof.
  intros Hlen. unfold focusInput, sel_ordered.
  pose proof (clamp_range p) as Hc.
  destruct (one && truthy (array_get (digits s) (clamp p))) eqn:Hg;
    unfold_setters; [|lia].
  apply andb_true_iff in Hg as [_ Hg]. apply truthy_array_get_lt in Hg. lia.
Qed.

Lemma sel_ordered_bounded (x : Sel) : sel_ordered x → sel_bounded x.
Proof. unfold sel_ordered, sel_bounded. lia. Qed.

Lemma dispatch_sel_bounded e s :
  length (digits s) = 6%nat →
  sel_bounded (selection s) → sel_bounded (selection (dispatch e s)).
Proof.
  intros Hlen Hb. destruct e as [t|k|a b|i| | |ok|]; cbn [dispatch].
  - unfold handleChangeText. destruct (loading s); [done|].
    destruct (_ && _) eqn:Hg; [|done].
    unfold_setters. unfold sel_bounded in *. unfold OTP_LENGTH.
    cbn [start end_]. lia.
  - unfold handleKeyPress. destruct (loading s); [done|].
    case_bool_decide; [|done]. by destruct (_ && _).
  - unfold handleSelectionChange. destruct (loading s); [done|].
    unfold_setters. split; apply clamp_range.
  - unfold handleBoxPress. destruct (loading s); [done|].
    by apply sel_ordered_bounded, focusInput_sel_ordered.
  - by apply sel_ordered_bounded, focusInput_sel_ordered.
  - by destruct (_ || _).
  - destruct (inflight s); [done|]. unfold handleSubmit_resume.
    destruct ok; unfold_setters; [|done]. unfold sel_bounded; cbn; lia.
  - destruct (timers s); [done|]. unfold refocus_callback. unfold_setters.
    unfold sel_bounded; cbn; lia.
Qed.

Lemma dispatch_sel_ordered e s :
  length (digits s) = 6%nat →
  sel_ordered (selection s) →
  (∀ a b, e = SelectionChange a b → a ≤ b) →
  sel_ordered (selection (dispatch e s)).
Proof.
  intros Hlen Ho He. destruct e as [t|k|a b|i| | |ok|]; cbn [dispatch].
  - unfold handleChangeText. destruct (loading s); [done|].
    destruct (_ && _) eqn:Hg; [|done].
    unfold_setters. unfold sel_ordered in *. unfold OTP_LENGTH.
    cbn [start end_]. lia.
  - unfold handleKeyPress. destruct (loading s); [done|].
    case_bool_decide; [|done]. by destruct (_ && _).
  - unfold handleSelectionChange. destruct (loading s); [done|].
    unfold_setters. unfold sel_ordered. cbn [start end_].
    pose proof (clamp_range a). pose proof (clamp_range b).
    pose proof (clamp_mono a b (He a b eq_refl)). lia.
  - unfold handleBoxPress. destruct (loading s); [done|].
    by apply focusInput_sel_ordered.
  - by apply focusInput_sel_ordered.
  - by destruct (_ || _).
  - destruct (inflight s); [done|]. unfold handleSubmit_resume.
    destruct ok; unfold_setters; [|done]. unfold sel_ordered; cbn; lia.
  - destruct (timers s); [done|]. unfold refocus_callback. unfold_setters.
    unfold sel_ordered; cbn; lia.
Qed.

(** What a handler does to the selection: it leaves it alone, or it stores
    an ordered one, or it is a selection change whose raw start exceeds its
    raw end. *)
Lemma dispatch_sel_keeps_or_orders e s :
  length (digits s) = 6%nat →
  sel_bounded (selection s) →
  selection (dispatch e s) = selection s
  ∨ sel_ordered (selection (dispatch e s))
  ∨ (∃ a b, e = SelectionChange a b ∧ b < a).
Proof.
  intros Hlen Hb. destruct e as [t|k|a b|i| | |ok|]; cbn [dispatch].
  - unfold handleChangeText. destruct (loading s); [by left|].
    destruct (_ && _) eqn:Hg; [|by left]. right; left.
    unfold_setters. unfold sel_bounded, sel_ordered in *. unfold OTP_LENGTH.
    cbn [start end_]. lia.
  - left. unfold handleKeyPress. destruct (loading s); [done|].
    case_bool_decide; [|done]. by destruct (_ && _).
  - unfold handleSelectionChange. destruct (loading s); [by left|].
    destruct (decide (a ≤ b)) as [Hab|Hab].
    + right; left. unfold_setters. unfold sel_ordered. cbn [start end_].
      pose proof (clamp_range a). pose proof (clamp_range b).
      pose proof (clamp_mono a b Hab). lia.
    + right; right. exists a, b. split; [done | lia].
  - unfold handleBoxPress. destruct (loading s); [by left|].
    right; left. by apply focusInput_sel_ordered.
  - right; left. by apply focusInput_sel_ordered.
  - left. by destruct (_ || _).
  - destruct (inflight s); [by left|]. unfold handleSubmit_resume.
    destruct ok; unfold_setters; [|by left].
    right; left. unfold sel_ordered; cbn; lia.
  - destruct (timers s); [by left|]. right; left.
    unfold refocus_callback. unfold_setters. unfold sel_ordered; cbn; lia.
Qed.

(** C2, as the code has it.  Both endpoints of the selection lie in 0..6 at
    mount, after every update cycle from a state where they do (six-slot
    buffer), and so after every event sequence from mount; a
    selection-change event stores each raw endpoint clamped on its own,
    whatever the raw values.  The order start ≤ end holds at mount and is
    kept by every update cycle from a state where it holds, except a
    selection-change event whose raw start exceeds its raw end; it holds
    after a selection change with rawStart ≤ rawEnd.  Every update cycle
    either leaves the selection as it found it or stores an ordered one,
    again except such a selection change: a focus operation on a position,
    a text change that writes a digit, the resolution of a submission and
    the refocus callback store an ordered selection whatever the selection
    was before. *)
Theorem selection_clamped :
  sel_ordered (selection initial_state)
  ∧ (∀ e s, length (digits s) = 6%nat → sel_bounded (selection s) →
       sel_bounded (selection (step e s)))
  ∧ (∀ e s, length (digits s) = 6%nat → sel_ordered (selection s) →
       (∀ a b, e = SelectionChange a b → a ≤ b) →
       sel_ordered (selection (step e s)))
  ∧ (∀ a b s, loading s = false →
       selection (handleSelectionChange a b s) = mkSel (clamp a) (clamp b)
       ∧ sel_bounded (selection (handleSelectionChange a b s))
       ∧ (a ≤ b → sel_ordered (selection (handleSelectionChange a b s))))
  ∧ (∀ p one s, length (digits s) = 6%nat →
       sel_ordered (selection (focusInput (Some p) one s)))
  ∧ (∀ e s, length (digits s) = 6%nat → sel_bounded (selection s) →
       selection (step e s) = selection s
       ∨ sel_ordered (selection (step e s))
       ∨ (∃ a b, e = SelectionChange a b ∧ b < a))
  ∧ (∀ raw s, loading s = false → sanitize raw ≠ EmptyString →
       0 ≤ start (selection s) < 6 →
       sel_ordered (selection (step (ChangeText raw) s)))
  ∧ (∀ s v rest, inflight s = v :: rest →
       selection (step (SubmissionSettles true) s) = mkSel 0 0)
  ∧ (∀ s n, timers s = S n → selection (step RefocusTimer s) = mkSel 0 0)
  ∧ (∀ es, sel_bounded (selection (run es initial_state))).
Proof.
  split; [unfold sel_ordered; cbn; lia|].
  split; [intros e s Hlen Hb; rewrite step_selection;
          by apply dispatch_sel_bounded|].
  split; [intros e s Hlen Ho He; rewrite step_selection;
          by apply dispatch_sel_ordered|].
  split.
  { intros a b s Hl. unfold handleSelectionChange. rewrite Hl. unfold_setters.
    pose proof (clamp_range a). pose proof (clamp_range b).
    split; [done|]. split; [done|].
    intros Hab. pose proof (clamp_mono a b Hab).
    unfold sel_ordered; cbn [start end_]. lia. }
  split; [intros p one s Hlen; by apply focusInput_sel_ordered|].
  split; [intros e s Hlen Hb; rewrite step_selection;
          by apply dispatch_sel_keeps_or_orders|].
  split.
  { intros raw s Hl Hraw Hp. rewrite step_selection. cbn [dispatch].
    unfold handleChangeText. rewrite Hl.
    assert (truthy_str (sanitize raw) = true) as ->
      by (by destruct (sanitize raw)).
    assert ((start (selection s) <? OTP_LENGTH) = true) as ->
      by (apply Z.ltb_lt; unfold OTP_LENGTH; lia).
    cbn [andb]. unfold_setters. unfold sel_ordered, OTP_LENGTH.
    cbn [start end_]. lia. }
  split.
  { intros s v rest Hi. rewrite step_selection. cbn [dispatch].
    by rewrite Hi. }
  split.
  { intros s n Ht. rewrite step_selection. cbn [dispatch]. by rewrite Ht. }
  intros es.
  assert (Hgen : ∀ s, buffer_ok (digits s) → sel_bounded (selection s) →
            sel_bounded (selection (foldl (λ st e, step e st) s es))).
  { induction es as [|e es IH]; intros s Hok Hb; [done|].
    cbn [foldl]. apply IH.
    - rewrite step_digits. by apply dispatch_buffer_ok.
    - rewrite step_selection. apply dispatch_sel_bounded; [apply Hok | done]. }
  apply Hgen; [apply empty_digits_ok|]. unfold sel_bounded; cbn; lia.
Qed.

Lemma selection_clamped_witness :
  sel_bounded (selection (step (SelectionChange 9 (-4)) initial_state))
  ∧ sel_ordered (selection (step (SelectionChange 2 40) initial_state))
  ∧ sel_ordered (selection (focusInput (Some 7) true initial_state))
  ∧ sel_ordered (selection (step (ChangeText "8")
                              (step (SelectionChange 5 2) initial_state)))
  ∧ selection (step (SubmissionSettles true) (run type_all_six initial_state))
    = mkSel 0 0
  ∧ selection (step RefocusTimer
                 (run (type_all_six ++ [SubmissionSettles false])
                      initial_state)) = mkSel 0 0.
Proof.
  split; [|split; [|split; [|split; [|split]]]].
  - apply (proj1 (proj2 selection_clamped)
             (SelectionChange 9 (-4)) initial_state); [reflexivity|].
    vm_compute. repeat split; discriminate.
  - apply (proj1 (proj2 (proj2 selection_clamped))
             (SelectionChange 2 40) initial_state); [reflexivity| |].
    + vm_compute. repeat split; discriminate.
    + intros a b [= <- <-]. vm_compute. discriminate.
  - apply (proj1 (proj2 (proj2 (proj2 (proj2 selection_clamped))))
             7 true initial_state). reflexivity.
  - apply (proj1 (proj2 (proj2 (proj2 (proj2 (proj2 (proj2
             selection_clamped))))))
             "8"%string (step (SelectionChange 5 2) initial_state));
      [reflexivity | discriminate
      | vm_compute; split; [discriminate | reflexivity]].
  - apply (proj1 (proj2 (proj2 (proj2 (proj2 (proj2 (proj2 (proj2
             selection_clamped)))))))
             (run type_all_six initial_state) "123456"%string []).
    reflexivity.
  - apply (proj1 (proj2 (proj2 (proj2 (proj2 (proj2 (proj2 (proj2 (proj2
             selection_clamped))))))))
             (run (type_all_six ++ [SubmissionSettles false]) initial_state)
             0%nat).
    reflexivity.
Defined.

(** C2, as the claim words it, fails: a selection-change event whose raw
    start is 5 and raw end is 2, received in the initial state, stores the
    selection (5, 2), in which start exceeds end. *)
Lemma selection_change_stores_inverted :
  selection (step (SelectionChange 5 2) initial_state) = mkSel 5 2
  ∧ ¬ sel_ordered (selection (step (SelectionChange 5 2) initial_state))
  ∧ ¬ (∀ a b s,
         start (selection (handleSelectionChange a b s))
         ≤ end_ (selection (handleSelectionChange a b s))).
Proof.
  split; [reflexivity|]. split.
  - vm_compute. intros (_ & H & _). by apply H.
  - intros H. specialize (H 5 2 initial_state). vm_compute in H. by apply H.
Qed.

(** ** The effect and the Submitting status *)

Lemma run_effect_settled s : settled s → run_effect s = s.
Proof. unfold settled, run_effect. intros ->. by rewrite decide_True. Qed.

Lemma isComplete_empty_digits s :
  digits s = empty_digits → isComplete s = false.
Proof. intros H. by rewrite (isComplete_digits s initial_state). Qed.

(** While Submitting, the four guarded handlers return the state they were
    given; the row's onPress has no guard and goes through focusInput. *)
Lemma submitting_guards s :
  loading s = true →
  (∀ t, handleChangeText t s = s)
  ∧ (∀ k, handleKeyPress k s = s)
  ∧ (∀ a b, handleSelectionChange a b s = s)
  ∧ (∀ i, handleBoxPress i s = s)
  ∧ digits (handleRowPress s) = digits s
  ∧ selection (handleRowPress s)
    = mkSel (clamp (start (selection s))) (clamp (start (selection s))).
Proof.
  intros Hl.
  unfold handleChangeText, handleKeyPress, handleSelectionChange,
    handleBoxPress, handleRowPress. rewrite Hl.
  repeat split; done.
Qed.

(** A handler that completes the buffer from an idle, incomplete state is
    one of the editing handlers: it leaves loading, the suspended calls and
    the effect's dependency pair alone. *)
Lemma completing_dispatch_frame e s :
  isComplete s = false →
  isComplete (dispatch e s) = true →
  loading (dispatch e s) = loading s
  ∧ inflight (dispatch e s) = inflight s
  ∧ deps (dispatch e s) = deps s
  ∧ e ≠ SubmitPress.
Proof.
  intros Hs Hd. destruct (loading s) eqn:Hl.
  { destruct (submitting_guards s Hl) as (H1 & H2 & H3 & H4 & H5 & _).
    destruct e as [t|k|a b|i| | |ok|]; cbn [dispatch] in *.
    - rewrite H1 in Hd. congruence.
    - rewrite H2 in Hd. congruence.
    - rewrite H3 in Hd. congruence.
    - rewrite H4 in Hd. congruence.
    - rewrite (isComplete_digits _ s) in Hd by done. congruence.
    - rewrite Hl in Hd. cbn [orb] in Hd. congruence.
    - destruct (inflight s) as [|v rest]; [congruence|]. destruct ok.
      + rewrite isComplete_empty_digits in Hd by done. done.
      + rewrite (isComplete_digits _ s) in Hd by done. congruence.
    - destruct (timers s); [congruence|].
      rewrite (isComplete_digits _ s) in Hd by done. congruence. }
  destruct e as [t|k|a b|i| | |ok|]; cbn [dispatch] in *.
  - unfold handleChangeText in *. rewrite Hl in *.
    destruct (_ && _); [|by rewrite Hl]. by unfold_setters.
  - unfold handleKeyPress in *. rewrite Hl in *.
    case_bool_decide; [|by rewrite Hl].
    destruct (_ && _); [|by rewrite Hl]. by unfold_setters.
  - unfold handleSelectionChange in *. rewrite Hl in *. by unfold_setters.
  - unfold handleBoxPress, focusInput in *. rewrite Hl in *.
    destruct (_ && _); by unfold_setters.
  - unfold handleRowPress, focusInput in *.
    destruct (_ && _); by unfold_setters.
  - rewrite Hl, Hs in Hd. cbn [orb] in Hd.
    rewrite (isComplete_digits _ s) in Hd by done. congruence.
  - destruct (inflight s) as [|v rest]; [congruence|]. destruct ok.
    + rewrite isComplete_empty_digits in Hd by done. done.
    + rewrite (isComplete_digits _ s) in Hd by done. congruence.
  - destruct (timers s); [congruence|].
    rewrite (isComplete_digits _ s) in Hd by done. congruence.
Qed.

(** The cycle in which the buffer becomes complete: the effect calls
    handleSubmit once, and its re-run (loading changed) is stopped by the
    guard.  No submit press is involved. *)
Lemma auto_submit_same_cycle e s :
  settled s → loading s = false → isComplete s = false →
  isComplete (dispatch e s) = true →
  e ≠ SubmitPress
  ∧ loading (step e s) = true
  ∧ inflight (step e s) = inflight s ++ [value (dispatch e s)]
  ∧ digits (step e s) = digits (dispatch e s)
  ∧ settled (step e s).
Proof.
  intros Hset Hl Hs Hd.
  destruct (completing_dispatch_frame e s Hs Hd) as (Hl' & Hi' & Hd' & Hne).
  split; [done|]. unfold step.
  set (d := dispatch e s) in *.
  assert (Hr1 : run_effect d = handleSubmit_begin (setDeps (true, false) d)).
  { unfold run_effect. rewrite Hd, Hl', Hl, Hd', Hset, Hs, Hl.
    rewrite decide_False by done. unfold effect_body.
    rewrite (isComplete_digits _ d) by done. rewrite Hd.
    unfold_setters. by rewrite Hl', Hl. }
  rewrite Hr1. unfold run_effect.
  rewrite (isComplete_digits _ d) by done. rewrite Hd.
  cbn [handleSubmit_begin]. unfold_setters.
  rewrite decide_False by done. unfold effect_body.
  rewrite (isComplete_digits _ d) by done. rewrite Hd. unfold_setters.
  cbn [andb negb]. unfold settled. unfold_setters.
  rewrite (isComplete_digits _ d) by done. rewrite Hd.
  by rewrite Hi'.
Qed.

(** While Submitting, no event other than the settling of the submission
    starts another handleSubmit call or leaves the status. *)
Lemma no_second_submission_while_submitting e s :
  settled s → loading s = true →
  (∀ ok, e ≠ SubmissionSettles ok) →
  loading (step e s) = true ∧ inflight (step e s) = inflight s.
Proof.
  intros Hset Hl He.
  assert (Hfr : loading (dispatch e s) = true
                ∧ inflight (dispatch e s) = inflight s
                ∧ settled (dispatch e s)).
  { destruct (submitting_guards s Hl) as (H1 & H2 & H3 & H4 & _).
    destruct e as [t|k|a b|i| | |ok|]; cbn [dispatch].
    - by rewrite H1.
    - by rewrite H2.
    - by rewrite H3.
    - by rewrite H4.
    - unfold handleRowPress, focusInput, settled in *.
      destruct (_ && _); unfold_setters;
        by rewrite (isComplete_digits _ s).
    - by rewrite Hl.
    - by destruct (He ok).
    - destruct (timers s); [done|]. unfold refocus_callback, settled in *.
      unfold_setters. by rewrite (isComplete_digits _ s). }
  destruct Hfr as (H1 & H2 & H3). unfold step.
  rewrite (run_effect_settled (dispatch e s)) by done.
  by rewrite (run_effect_settled (dispatch e s)).
Qed.

(** When the awaited submission resolves, the cycle ends idle with an
    incomplete (empty) buffer, and the effect starts nothing. *)
Lemma resolved_submission_ends_idle s v rest :
  inflight s = v :: rest →
  loading (step (SubmissionSettles true) s) = false
  ∧ isComplete (step (SubmissionSettles true) s) = false
  ∧ inflight (step (SubmissionSettles true) s) = rest.
Proof.
  intros Hi.
  set (d := dispatch (SubmissionSettles true) s).
  assert (Hd : digits d = empty_digits ∧ loading d = false ∧ inflight d = rest).
  { subst d. cbn [dispatch]. by rewrite Hi. }
  destruct Hd as (Hd1 & Hd2 & Hd3).
  assert (Hr : ∀ x, digits x = empty_digits → loading x = false →
            digits (run_effect x) = empty_digits ∧ loading (run_effect x) = false
            ∧ inflight (run_effect x) = inflight x).
  { intros x Hx1 Hx2. unfold run_effect. case_decide; [done|].
    unfold effect_body. rewrite (isComplete_empty_digits (setDeps _ x)) by done.
    done. }
  unfold step. fold d.
  destruct (Hr d Hd1 Hd2) as (Ha & Hb & Hc).
  destruct (Hr (run_effect d) Ha Hb) as (Ha' & Hb' & Hc').
  split; [done|]. split.
  - by apply isComplete_empty_digits.
  - by rewrite Hc', Hc.
Qed.

(** Two runs of the effect are all a cycle needs: the second run finds the
    dependencies it left behind, or finds loading set and stops at the
    guard.  Every cycle therefore ends in a settled state. *)
Lemma step_settled e s : settled (step e s).
Proof.
  unfold step. set (d := dispatch e s). clearbody d.
  unfold run_effect at 2. case_decide as Hd.
  { rewrite run_effect_settled; by unfold settled. }
  unfold effect_body.
  rewrite (isComplete_digits (setDeps _ d) d) by done.
  cbn [setDeps loading].
  destruct (isComplete d) eqn:Hc, (loading d) eqn:Hl; cbn [andb negb].
  - rewrite run_effect_settled; unfold settled; unfold_setters;
      rewrite (isComplete_digits _ d) by done; by rewrite Hc, Hl.
  - unfold run_effect. rewrite (isComplete_digits _ d) by done.
    rewrite Hc. cbn [handleSubmit_begin]. unfold_setters.
    rewrite decide_False by done. unfold effect_body.
    rewrite (isComplete_digits _ d) by done. rewrite Hc.
    unfold_setters. cbn [andb negb]. unfold settled. unfold_setters.
    by rewrite (isComplete_digits _ d), Hc.
  - rewrite run_effect_settled; unfold settled; unfold_setters;
      rewrite (isComplete_digits _ d) by done; by rewrite Hc, Hl.
  - rewrite run_effect_settled; unfold settled; unfold_setters;
      rewrite (isComplete_digits _ d) by done; by rewrite Hc, Hl.
Qed.

Lemma initial_state_settled : settled initial_state.
Proof. reflexivity. Qed.

(** ** What the submission does when it settles *)

Lemma failure_message_distinct v : failure_message ≠ success_message v.
Proof. unfold failure_message, success_message. cbn. discriminate. Qed.

(** The catch and finally blocks never touch the buffer: whatever state the
    submission started from, the error branch ends with the buffer it
    found. *)
Lemma failed_submission_frame s v rest :
  inflight s = v :: rest →
  digits (step (SubmissionSettles false) s) = digits s
  ∧ alerts (dispatch (SubmissionSettles false) s) = failure_message :: alerts s
  ∧ loading (dispatch (SubmissionSettles false) s) = false
  ∧ timers (dispatch (SubmissionSettles false) s) = S (timers s).
Proof.
  intros Hi. rewrite step_digits. cbn [dispatch]. by rewrite Hi.
Qed.

(** The try block clears the buffer and the selection in the step in which
    the await resolves, before the callback of the finally block runs. *)
Lemma resolved_submission_frame s v rest :
  inflight s = v :: rest →
  digits (step (SubmissionSettles true) s) = empty_digits
  ∧ selection (step (SubmissionSettles true) s) = mkSel 0 0
  ∧ alerts (dispatch (SubmissionSettles true) s) = success_message v :: alerts s
  ∧ timers (dispatch (SubmissionSettles true) s) = S (timers s).
Proof.
  intros Hi. rewrite step_digits, step_selection. cbn [dispatch].
  by rewrite Hi.
Qed.

(** C1, where the code departs from it.  All six digits are typed, the
    effect starts the submission, and the awaited operation throws.  The
    failure alert is raised (a text different from the success alert) and
    loading is cleared, but the buffer still reads 1 2 3 4 5 6 and is not
    all-empty; after the refocus callback the selection is (0,0) and the
    field is focused, with the buffer still full. *)
Theorem failed_submission_keeps_buffer :
  let s := run type_all_six initial_state in
  let s' := dispatch (SubmissionSettles false) s in
  let s'' := run [SubmissionSettles false; RefocusTimer] s in
  loading s = true
  ∧ alerts s' = [failure_message]
  ∧ failure_message ≠ success_message (value s)
  ∧ loading s' = false
  ∧ digits s' = [Some "1"; Some "2"; Some "3"; Some "4"; Some "5"; Some "6"]%string
  ∧ ¬ all_empty (digits s')
  ∧ digits s'' = [Some "1"; Some "2"; Some "3"; Some "4"; Some "5"; Some "6"]%string
  ∧ selection s'' = mkSel 0 0
  ∧ focused s'' = true.
Proof.
  cbv zeta. split; [reflexivity|]. split; [reflexivity|].
  split; [apply failure_message_distinct|].
  split; [reflexivity|]. split; [reflexivity|].
  split; [vm_compute; discriminate|].
  split; [reflexivity|]. split; reflexivity.
Qed.

(** C3, where the code departs from it.  A digit is typed into box 2, box 2
    is tapped (selection (2,3)) and the submit button is pressed, so the
    status is Submitting.  A tap on the row then goes through focusInput,
    which has no loading guard, and the selection becomes (2,2). *)
Theorem row_press_changes_selection_while_submitting :
  let s := run [SelectionChange 2 2; ChangeText "3"; BoxPress 2; SubmitPress]
               initial_state in
  loading s = true
  ∧ selection s = mkSel 2 3
  ∧ selection (step RowPress s) = mkSel 2 2
  ∧ selection (step RowPress s) ≠ selection s
  ∧ loading (step RowPress s) = true.
Proof.
  cbv zeta. split; [reflexivity|]. split; [reflexivity|].
  split; [reflexivity|]. split; [vm_compute; discriminate | reflexivity].
Qed.

(** C4, where the code departs from it.  All six digits are typed and the
    awaited submission resolves.  In that same step the success alert is
    raised, the buffer is set to six empty slots and the selection to (0,0);
    the callback scheduled by the finally block is still pending, and when
    it runs it changes neither the buffer nor the selection. *)
Theorem submission_clears_at_resolution :
  let s := run type_all_six initial_state in
  let s' := step (SubmissionSettles true) s in
  loading s = true
  ∧ digits s = [Some "1"; Some "2"; Some "3"; Some "4"; Some "5"; Some "6"]%string
  ∧ alerts s' = ["Submitted code: 123456"%string]
  ∧ all_empty (digits s')
  ∧ selection s' = mkSel 0 0
  ∧ loading s' = false
  ∧ timers s' = 1%nat
  ∧ digits (step RefocusTimer s') = digits s'
  ∧ selection (step RefocusTimer s') = selection s'
  ∧ timers (step RefocusTimer s') = 0%nat.
Proof. cbv zeta. repeat split; reflexivity. Qed.

(** C8, where the code departs from it.  All six digits are typed and the
    effect starts the submission (one suspended call).  The awaited
    operation throws: the handler leaves the buffer complete and clears
    loading, so the effect's dependencies changed and it calls handleSubmit
    again: the status is Submitting a second time for the same complete
    buffer, with a new suspended call. *)
Theorem failed_submission_resubmits :
  let s := run type_all_six initial_state in
  let d := dispatch (SubmissionSettles false) s in
  let s' := step (SubmissionSettles false) s in
  isComplete s = true ∧ loading s = true ∧ inflight s = ["123456"%string]
  ∧ isComplete d = true ∧ loading d = false ∧ inflight d = []
  ∧ isComplete s' = true ∧ loading s' = true ∧ inflight s' = ["123456"%string].
Proof. cbv zeta. repeat split; reflexivity. Qed.

(** * Further properties of the component *)

(** ** value and isComplete *)

Lemma digit_or_empty_truthy_false (x : slot) :
  digit_or_empty x → truthy x = false → x = Some EmptyString.
Proof. intros [->|(c & _ & ->)]; [done|]. discriminate. Qed.

Lemma join_cons_empty (d : list slot) : join (Some EmptyString :: d) = join d.
Proof. reflexivity. Qed.

Lemma join_cons_char c (d : list slot) :
  join (Some (String c EmptyString) :: d) = String c (join d).
Proof. reflexivity. Qed.

Lemma join_filled_length (d : list slot) :
  Forall digit_or_empty d →
  String.length (join d) = length (List.filter truthy d).
Proof.
  induction 1 as [|x d Hx _ IH]; [done|].
  destruct Hx as [->|(c & _ & ->)].
  - by rewrite join_cons_empty.
  - rewrite join_cons_char. cbn [String.length List.filter truthy truthy_str
      length]. by rewrite IH.
Qed.

Lemma join_all_digits (d : list slot) :
  Forall digit_or_empty d → all_digits (join d).
Proof.
  unfold all_digits. induction 1 as [|x d Hx _ IH]; [constructor|].
  destruct Hx as [->|(c & Hc & ->)].
  - by rewrite join_cons_empty.
  - rewrite join_cons_char. by constructor.
Qed.

Lemma filter_truthy_length (d : list slot) :
  (length (List.filter truthy d) ≤ length d)%nat
  ∧ (length (List.filter truthy d) = length d ↔ filled d).
Proof.
  unfold filled. induction d as [|x d [IH1 IH2]]; [by split|].
  cbn [List.filter]. destruct (truthy x) eqn:Hx; cbn [length].
  - split; [lia|]. split.
    + intros [= H]. constructor; [done|]. by apply IH2.
    + intros H. inversion H; subst. f_equal. by apply IH2.
  - split; [lia|]. split; [lia|].
    intros H. inversion H; subst. congruence.
Qed.

Lemma includes_empty_filled (d : list slot) :
  Forall digit_or_empty d →
  (includes (Some EmptyString) d = false ↔ filled d).
Proof.
  unfold filled, includes. induction 1 as [|x d Hx _ IH]; [done|].
  cbn [existsb]. rewrite orb_false_iff, IH. split.
  - intros [Hb Hd]. constructor; [|done].
    apply bool_decide_eq_false in Hb.
    destruct (truthy x) eqn:Ht; [done|].
    by destruct Hb; apply digit_or_empty_truthy_false.
  - intros H. inversion H as [|? ? Ht Hd]; subst. split; [|done].
    apply bool_decide_eq_false. intros ->. discriminate.
Qed.

Lemma isComplete_filled s :
  buffer_ok (digits s) → (isComplete s = true ↔ filled (digits s)).
Proof.
  intros [Hlen Hall]. unfold isComplete, value.
  rewrite andb_true_iff, negb_true_iff, includes_empty_filled by done.
  split; [by intros [_ ?]|]. intros Hf. split; [|done].
  rewrite join_filled_length by done.
  apply filter_truthy_length in Hf. rewrite Hf, Hlen. done.
Qed.

(** X1.  For a buffer of six slots, each empty or one digit: isComplete is
    true exactly when no slot is empty, which is exactly when the joined
    value has six characters (the includes test adds nothing then); the
    value never has more than six characters and holds digits only. *)
Theorem isComplete_iff_all_filled (s : AppState) :
  buffer_ok (digits s) →
  (isComplete s = true ↔ filled (digits s))
  ∧ (isComplete s = true ↔ String.length (value s) = 6%nat)
  ∧ (String.length (value s) ≤ 6)%nat
  ∧ all_digits (value s).
Proof.
  intros Hok. pose proof Hok as [Hlen Hall].
  pose proof (filter_truthy_length (digits s)) as [Hle Heq].
  split; [by apply isComplete_filled|]. unfold value.
  rewrite join_filled_length by done. split; [|split].
  - rewrite isComplete_filled by done. rewrite <- Heq, Hlen. done.
  - lia.
  - by apply join_all_digits.
Qed.

Lemma isComplete_iff_all_filled_witness :
  isComplete (run type_all_six initial_state) = true
  ↔ String.length (value (run type_all_six initial_state)) = 6%nat.
Proof.
  refine (proj1 (proj2 (isComplete_iff_all_filled
                          (run type_all_six initial_state) _))).
  split; [reflexivity|].
  assert (digits (run type_all_six initial_state)
          = [Some "1"; Some "2"; Some "3"; Some "4"; Some "5"; Some "6"]%string)
    as -> by reflexivity.
  repeat (constructor 2; [right; eexists; split; [|reflexivity]; reflexivity|]).
  constructor 1.
Defined.

(** ** Submissions *)

Lemma dispatch_deps e s : deps (dispatch e s) = deps s.
Proof.
  destruct e as [t|k|a b|i| | |ok|]; cbn [dispatch].
  - unfold handleChangeText. destruct (loading s); [done|].
    by destruct (_ && _).
  - unfold handleKeyPress. destruct (loading s); [done|].
    case_bool_decide; [|done]. by destruct (_ && _).
  - unfold handleSelectionChange. by destruct (loading s).
  - unfold handleBoxPress, focusInput. destruct (loading s); [done|].
    by destruct (_ && _).
  - unfold handleRowPress, focusInput. by destruct (_ && _).
  - by destruct (_ || _).
  - destruct (inflight s); [done|]. by destruct ok.
  - by destruct (timers s).
Qed.

(** A handler that changes neither isComplete nor loading gives the effect
    nothing to do. *)
Lemma step_no_effect e s :
  settled s →
  isComplete (dispatch e s) = isComplete s →
  loading (dispatch e s) = loading s →
  step e s = dispatch e s.
Proof.
  intros Hset Hc Hl.
  assert (Hd : settled (dispatch e s)).
  { unfold settled in *. by rewrite dispatch_deps, Hc, Hl. }
  unfold step. by rewrite !(run_effect_settled (dispatch e s)).
Qed.

Lemma run_invariant (P : AppState → Prop) :
  P initial_state → (∀ e s, P s → P (step e s)) →
  ∀ es, P (run es initial_state).
Proof.
  intros H0 Hstep es. unfold run.
  generalize dependent initial_state.
  induction es as [|e es IH]; intros s Hs; [done|].
  cbn [foldl]. apply IH. by apply Hstep.
Qed.

Lemma run_app es1 es2 s : run (es1 ++ es2) s = run es2 (run es1 s).
Proof. unfold run. apply foldl_app. Qed.

Lemma buffer_ok_incomplete_short s :
  buffer_ok (digits s) → isComplete s = false →
  (String.length (value s) < 6)%nat.
Proof.
  intros Hok Hc. pose proof Hok as [Hlen Hall].
  pose proof (filter_truthy_length (digits s)) as [Hle Heq].
  unfold value. rewrite join_filled_length by done.
  destruct (decide (length (List.filter truthy (digits s)) = length (digits s)))
    as [He|Hne]; [|lia].
  apply Heq, isComplete_filled in He; [congruence | done].
Qed.

(** X2.  When a handler completes a well-formed buffer from an idle state,
    the same update cycle ends in Submitting with one more suspended
    submission; the value that submission carries is the six slots joined,
    six characters long and all digits, and the submit slot shows the
    loading row.  The event is never the submit press. *)
Theorem auto_submit_carries_six_digits (e : event) (s : AppState) :
  settled s → loading s = false → isComplete s = false →
  buffer_ok (digits s) →
  isComplete (dispatch e s) = true →
  e ≠ SubmitPress
  ∧ loading (step e s) = true
  ∧ renderSubmitSlot (step e s) = LoadingRow
  ∧ ∃ v, inflight (step e s) = inflight s ++ [v]
         ∧ v = join (digits (step e s))
         ∧ String.length v = 6%nat
         ∧ all_digits v.
Proof.
  intros Hset Hl Hc Hok Hd.
  destruct (auto_submit_same_cycle e s Hset Hl Hc Hd)
    as (Hne & Hl' & Hi' & Hd' & _).
  split; [done|]. split; [done|].
  split; [unfold renderSubmitSlot; by rewrite Hl'|].
  exists (value (dispatch e s)). rewrite Hd'. unfold value.
  pose proof (dispatch_buffer_ok e s Hok) as Hok'.
  pose proof Hok' as [Hlen Hall].
  split; [done|]. split; [done|]. split; [|by apply join_all_digits].
  rewrite join_filled_length by done.
  apply isComplete_filled in Hd; [|done].
  apply filter_truthy_length in Hd. by rewrite Hd.
Qed.

Lemma auto_submit_carries_six_digits_witness :
  loading (step (ChangeText "6")
             (run (typeDigitAt 0 "1" ++ typeDigitAt 1 "2" ++ typeDigitAt 2 "3"
                   ++ typeDigitAt 3 "4" ++ typeDigitAt 4 "5"
                   ++ [SelectionChange 5 5]) initial_state)) = true.
Proof.
  refine (proj1 (proj2 (auto_submit_carries_six_digits (ChangeText "6")
    (run (typeDigitAt 0 "1" ++ typeDigitAt 1 "2" ++ typeDigitAt 2 "3"
          ++ typeDigitAt 3 "4" ++ typeDigitAt 4 "5"
          ++ [SelectionChange 5 5]) initial_state) _ _ _ _ _)));
    try reflexivity.
  split; [reflexivity|].
  assert (digits (run (typeDigitAt 0 "1" ++ typeDigitAt 1 "2"
                       ++ typeDigitAt 2 "3" ++ typeDigitAt 3 "4"
                       ++ typeDigitAt 4 "5" ++ [SelectionChange 5 5])
                      initial_state)
          = [Some "1"; Some "2"; Some "3"; Some "4"; Some "5";
             Some EmptyString]%string) as -> by reflexivity.
  repeat (constructor 2; [right; eexists; split; [|reflexivity]; reflexivity|]).
  constructor 2; [by left | constructor 1].
Defined.

Lemma step_SubmitPress_idle s :
  settled s → loading s = false → isComplete s = false →
  step SubmitPress s = setDeps (false, true) (handleSubmit_begin s).
Proof.
  intros Hset Hl Hc. unfold step. cbn [dispatch]. rewrite Hl, Hc. cbn [orb].
  unfold run_effect at 2.
  rewrite (isComplete_digits (handleSubmit_begin s) s) by done.
  rewrite Hc.
  change (loading (handleSubmit_begin s)) with true.
  change (deps (handleSubmit_begin s)) with (deps s).
  rewrite Hset, Hc, Hl. rewrite decide_False by done.
  unfold effect_body. rewrite (isComplete_digits _ s) by done.
  rewrite Hc. cbn [andb]. rewrite run_effect_settled; [done|].
  unfold settled. by rewrite (isComplete_digits _ s), Hc.
Qed.

(** X3.  The submit button acts only while idle with an incomplete buffer
    (that is when it is rendered and enabled), and then it submits the
    buffer as it stands, with no validation: fewer than six characters,
    possibly none.  While loading or once complete the press does
    nothing. *)
Theorem manual_submit_is_partial (s : AppState) :
  settled s → buffer_ok (digits s) →
  (loading s = false → isComplete s = false →
     renderSubmitSlot s = SubmitButton false false
     ∧ loading (step SubmitPress s) = true
     ∧ inflight (step SubmitPress s) = inflight s ++ [value s]
     ∧ (String.length (value s) < 6)%nat
     ∧ digits (step SubmitPress s) = digits s
     ∧ selection (step SubmitPress s) = selection s)
  ∧ (loading s = true ∨ isComplete s = true → step SubmitPress s = s).
Proof.
  intros Hset Hok. split.
  - intros Hl Hc.
    split; [unfold renderSubmitSlot; by rewrite Hl, Hc|].
    rewrite step_digits, step_selection. cbn [dispatch].
    rewrite Hl, Hc. cbn [orb].
    split; [|split; [|split; [by apply buffer_ok_incomplete_short|done]]].
    + by rewrite step_SubmitPress_idle.
    + by rewrite step_SubmitPress_idle.
  - intros Hg.
    assert (dispatch SubmitPress s = s) as Hd.
    { cbn [dispatch]. destruct Hg as [-> | ->]; [done|].
      by rewrite orb_true_r. }
    rewrite step_no_effect; by rewrite ?Hd.
Qed.

Lemma manual_submit_is_partial_witness :
  inflight (step SubmitPress (run (typeDigitAt 0 "7") initial_state))
  = ["7"%string]
  ∧ step SubmitPress (run type_all_six initial_state)
    = run type_all_six initial_state.
Proof.
  split.
  - refine (proj1 (proj2 (proj2 (proj1 (manual_submit_is_partial
      (run (typeDigitAt 0 "7") initial_state) _ _) _ _))));
      try reflexivity.
    split; [reflexivity|].
    assert (digits (run (typeDigitAt 0 "7") initial_state)
            = [Some "7"; Some EmptyString; Some EmptyString;
               Some EmptyString; Some EmptyString; Some EmptyString]%string)
      as -> by reflexivity.
    constructor 2; [right; eexists; split; [|reflexivity]; reflexivity|].
    repeat (constructor 2; [by left|]). constructor 1.
  - refine (proj2 (manual_submit_is_partial
      (run type_all_six initial_state) _ _) _);
      [reflexivity | | left; reflexivity].
    split; [reflexivity|].
    assert (digits (run type_all_six initial_state)
            = [Some "1"; Some "2"; Some "3"; Some "4"; Some "5"; Some "6"]%string)
      as -> by reflexivity.
    repeat (constructor 2; [right; eexists; split; [|reflexivity]; reflexivity|]).
    constructor 1.
Defined.

Lemma handleSubmit_begin_inv s :
  loading s = false → inflight s = [] → submission_inv (handleSubmit_begin s).
Proof.
  intros Hl Hi. left. split; [done|]. exists (value s).
  unfold handleSubmit_begin. unfold_setters. by rewrite Hi.
Qed.

Lemma run_effect_submission_inv s :
  submission_inv s → submission_inv (run_effect s).
Proof.
  intros Hinv. unfold run_effect. case_decide; [done|].
  unfold effect_body.
  destruct (isComplete _ && negb (loading _)) eqn:Hg; [|done].
  apply andb_true_iff in Hg as [_ Hl%negb_true_iff].
  destruct Hinv as [[Hl' _]|[_ Hi]].
  - unfold_setters. congruence.
  - by apply handleSubmit_begin_inv.
Qed.

Lemma dispatch_submission_inv e s :
  submission_inv s → submission_inv (dispatch e s).
Proof.
  intros Hinv. destruct e as [t|k|a b|i| | |ok|]; cbn [dispatch].
  - unfold handleChangeText. destruct (loading s) eqn:Hl; [done|].
    destruct (_ && _); [|done]. unfold submission_inv in *.
    unfold_setters. by rewrite Hl in *.
  - unfold handleKeyPress. destruct (loading s) eqn:Hl; [done|].
    case_bool_decide; [|done]. destruct (_ && _); [|done].
    unfold submission_inv in *. unfold_setters. by rewrite Hl in *.
  - unfold handleSelectionChange. by destruct (loading s).
  - unfold handleBoxPress, focusInput. destruct (loading s) eqn:Hl; [done|].
    destruct (_ && _); unfold submission_inv in *; unfold_setters;
      by rewrite Hl in *.
  - unfold handleRowPress, focusInput.
    destruct (_ && _); unfold submission_inv in *; by unfold_setters.
  - destruct (loading s) eqn:Hl; cbn [orb]; [done|].
    destruct (isComplete s); [done|].
    destruct Hinv as [[? _]|[_ Hi]]; [congruence|].
    by apply handleSubmit_begin_inv.
  - destruct (inflight s) as [|v rest] eqn:Hi; [done|].
    destruct Hinv as [[_ [w Hw]]|[_ ?]]; [|congruence].
    rewrite Hi in Hw. injection Hw as -> ->.
    right. by destruct ok.
  - destruct (timers s); [done|]. unfold refocus_callback.
    unfold submission_inv in *. by unfold_setters.
Qed.

(** X4.  Whatever the events and their order (settlings that fail
    included), the component never has two submissions in flight, and
    loading is set exactly while one is: after any event sequence from the
    mounted state either loading is true and one handleSubmit call is
    suspended, or loading is false and none is.  The effect has always
    seen the final dependencies. *)
Theorem one_submission_in_flight (es : list event) :
  submission_inv (run es initial_state)
  ∧ (length (inflight (run es initial_state)) ≤ 1)%nat
  ∧ settled (run es initial_state).
Proof.
  assert (H : submission_inv (run es initial_state)
              ∧ settled (run es initial_state)).
  { apply (run_invariant (λ s, submission_inv s ∧ settled s)).
    - split; [by right | done].
    - intros e s [Hinv _]. split; [|apply step_settled].
      unfold step. by apply run_effect_submission_inv,
        run_effect_submission_inv, dispatch_submission_inv. }
  destruct H as [Hinv Hset]. split; [done|]. split; [|done].
  destruct Hinv as [[_ [v ->]]|[_ ->]]; cbn; lia.
Qed.

(** X5.  While Submitting, a whole update cycle started by a text change,
    a key press, a selection change, a box tap or a submit press ends in
    the very state it started from; the hidden field's boxes are all
    rendered disabled and without caret, and the submit slot shows the
    loading row instead of the button. *)
Theorem submitting_cycle_is_identity (s : AppState) :
  settled s → loading s = true →
  (∀ t, step (ChangeText t) s = s)
  ∧ (∀ k, step (KeyPress k) s = s)
  ∧ (∀ a b, step (SelectionChange a b) s = s)
  ∧ (∀ i, step (BoxPress i) s = s)
  ∧ step SubmitPress s = s
  ∧ Forall (λ b, boxDisabled b.1 = true ∧ boxCaret b.1 = false) (renderBoxes s)
  ∧ renderSubmitSlot s = LoadingRow.
Proof.
  intros Hset Hl.
  destruct (submitting_guards s Hl) as (H1 & H2 & H3 & H4 & _).
  assert (Hid : ∀ e, dispatch e s = s → step e s = s).
  { intros e He. rewrite step_no_effect; by rewrite ?He. }
  split; [intros t; by apply Hid, H1|].
  split; [intros k; by apply Hid, H2|].
  split; [intros a b; by apply Hid, H3|].
  split; [intros i; by apply Hid, H4|].
  split; [apply Hid; cbn [dispatch]; by rewrite Hl|].
  split; [|unfold renderSubmitSlot; by rewrite Hl].
  apply Forall_lookup. intros i [st txt] Hi.
  unfold renderBoxes in Hi. rewrite list_lookup_imap in Hi.
  destruct (digits s !! i); [|done]. injection Hi as <- _.
  cbn. rewrite Hl. split; [done | apply andb_false_r].
Qed.

Lemma submitting_cycle_is_identity_witness :
  step (ChangeText "9") (run type_all_six initial_state)
  = run type_all_six initial_state.
Proof.
  refine (proj1 (submitting_cycle_is_identity
                   (run type_all_six initial_state) _ _) "9"%string);
    vm_compute; reflexivity.
Defined.

(** ** Typing and deleting at a position *)

Lemma settled_setSelection x s : settled s → settled (setSelection x s).
Proof.
  unfold settled. intros H.
  by rewrite (isComplete_digits (setSelection x s) s).
Qed.

Lemma step_SelectionChange_idle a b s :
  settled s → loading s = false →
  step (SelectionChange a b) s = setSelection (mkSel (clamp a) (clamp b)) s.
Proof.
  intros Hset Hl.
  assert (Hd : dispatch (SelectionChange a b) s
               = setSelection (mkSel (clamp a) (clamp b)) s).
  { cbn [dispatch]. unfold handleSelectionChange. by rewrite Hl. }
  rewrite step_no_effect; rewrite ?Hd; done.
Qed.

Lemma step_ChangeText_idle raw s :
  settled s → loading s = false → isComplete s = false →
  length (digits s) = 6%nat →
  0 ≤ start (selection s) < 6 →
  sanitize raw ≠ EmptyString →
  digits (step (ChangeText raw) s)
  = <[Z.to_nat (start (selection s)) := Some (sanitize raw)]> (digits s)
  ∧ selection (step (ChangeText raw) s)
    = mkSel (Z.min (start (selection s) + 1) 5)
            (Z.min (start (selection s) + 1) 5)
  ∧ loading (step (ChangeText raw) s) = isComplete (step (ChangeText raw) s)
  ∧ settled (step (ChangeText raw) s)
  ∧ (isComplete (step (ChangeText raw) s) = false →
     inflight (step (ChangeText raw) s) = inflight s).
Proof.
  intros Hset Hl Hc Hlen Hp Hraw.
  assert (Hd : dispatch (ChangeText raw) s
    = setSelection (mkSel (Z.min (start (selection s) + 1) 5)
                          (Z.min (start (selection s) + 1) 5))
        (setDigits (<[Z.to_nat (start (selection s)) := Some (sanitize raw)]>
                      (digits s)) s)).
  { cbn [dispatch]. unfold handleChangeText. rewrite Hl.
    assert (truthy_str (sanitize raw) = true) as ->
      by (by destruct (sanitize raw)).
    assert ((start (selection s) <? OTP_LENGTH) = true) as ->
      by (apply Z.ltb_lt; unfold OTP_LENGTH; lia).
    cbn [andb]. rewrite array_set_inside by lia. done. }
  rewrite step_digits, step_selection, Hd.
  split; [done|]. split; [done|]. split; [|split; [apply step_settled|]].
  - destruct (isComplete (dispatch (ChangeText raw) s)) eqn:Hcd.
    + destruct (auto_submit_same_cycle _ s Hset Hl Hc Hcd)
        as (_ & Hl' & _ & Hd' & _).
      rewrite Hl'. symmetry.
      by rewrite (isComplete_digits _ (dispatch (ChangeText raw) s)).
    + rewrite step_no_effect; [| done | by rewrite Hcd, Hc | by rewrite Hd].
      rewrite Hcd. by rewrite Hd.
  - intros Hcs.
    rewrite (isComplete_digits _ (dispatch (ChangeText raw) s)) in Hcs
      by apply step_digits.
    rewrite step_no_effect; [| done | by rewrite Hcs, Hc | by rewrite Hd].
    by rewrite Hd.
Qed.

Lemma includes_empty_lookup (d : list slot) (i : nat) :
  d !! i = Some (Some EmptyString) → includes (Some EmptyString) d = true.
Proof.
  intros Hi. unfold includes. apply existsb_exists.
  exists (Some EmptyString). split.
  - apply list_elem_of_In, list_elem_of_lookup. by exists i.
  - by apply bool_decide_eq_true.
Qed.

Lemma step_Backspace_idle s :
  settled s → loading s = false → isComplete s = false →
  length (digits s) = 6%nat →
  0 ≤ start (selection s) < 6 →
  step (KeyPress "Backspace") s
  = setDigits (<[Z.to_nat (start (selection s)) := Some EmptyString]> (digits s)) s.
Proof.
  intros Hset Hl Hc Hlen Hp.
  assert (Hd : dispatch (KeyPress "Backspace") s
    = setDigits (<[Z.to_nat (start (selection s)) := Some EmptyString]>
                   (digits s)) s).
  { cbn [dispatch]. unfold handleKeyPress. rewrite Hl.
    rewrite bool_decide_eq_true_2 by done.
    assert ((0 <=? start (selection s)) = true) as -> by (apply Z.leb_le; lia).
    assert ((start (selection s) <? OTP_LENGTH) = true) as ->
      by (apply Z.ltb_lt; unfold OTP_LENGTH; lia).
    cbn [andb]. by rewrite array_set_inside by lia. }
  rewrite step_no_effect; rewrite ?Hd; [done | done | | done].
  rewrite Hc. unfold isComplete.
  rewrite (includes_empty_lookup _ (Z.to_nat (start (selection s)))).
  - apply andb_false_r.
  - unfold_setters. apply list_lookup_insert_eq. lia.
Qed.

Lemma run_typeDigitAt i raw s :
  settled s → loading s = false → isComplete s = false →
  length (digits s) = 6%nat → 0 ≤ i < 6 →
  sanitize raw ≠ EmptyString →
  digits (run (typeDigitAt i raw) s)
  = <[Z.to_nat i := Some (sanitize raw)]> (digits s)
  ∧ selection (run (typeDigitAt i raw) s)
    = mkSel (Z.min (i + 1) 5) (Z.min (i + 1) 5)
  ∧ loading (run (typeDigitAt i raw) s) = isComplete (run (typeDigitAt i raw) s)
  ∧ settled (run (typeDigitAt i raw) s)
  ∧ (isComplete (run (typeDigitAt i raw) s) = false →
     inflight (run (typeDigitAt i raw) s) = inflight s).
Proof.
  intros Hset Hl Hc Hlen Hi Hraw.
  unfold typeDigitAt, run. cbn [foldl].
  rewrite step_SelectionChange_idle by done.
  rewrite !clamp_inside by lia.
  set (s1 := setSelection (mkSel i i) s).
  assert (Hs1 : settled s1) by (by apply settled_setSelection).
  apply (step_ChangeText_idle raw s1); done.
Qed.

Lemma run_backspaceAt i s :
  settled s → loading s = false → isComplete s = false →
  length (digits s) = 6%nat → 0 ≤ i < 6 →
  run (backspaceAt i) s
  = setDigits (<[Z.to_nat i := Some EmptyString]> (digits s))
      (setSelection (mkSel i i) s).
Proof.
  intros Hset Hl Hc Hlen Hi.
  unfold backspaceAt, run. cbn [foldl].
  rewrite step_SelectionChange_idle by done.
  rewrite !clamp_inside by lia.
  set (s1 := setSelection (mkSel i i) s).
  assert (Hs1 : settled s1) by (by apply settled_setSelection).
  rewrite (step_Backspace_idle s1); done.
Qed.

Lemma render_text s : (snd <$> renderBoxes s) = (boxText <$> digits s).
Proof.
  apply list_eq. intros j. unfold renderBoxes.
  rewrite !list_lookup_fmap, list_lookup_imap. by destruct (digits s !! j).
Qed.

Lemma boxText_nonempty (v : string) :
  v ≠ EmptyString → boxText (Some v) = v.
Proof. by destruct v. Qed.

(** X6.  typeDigitAt i raw on an idle, incomplete six-slot buffer, for i
    in 0..5: when raw holds a digit, slot i becomes the first digit of raw
    and no other slot changes, box i shows that digit and every other box
    shows what it showed, the caret moves to min(i+1, 5) and the component
    is Submitting afterwards exactly when the buffer got complete.  When
    raw holds no digit only the caret moves, to (i, i). *)
Theorem typeDigitAt_writes_one_box (i : Z) (raw : string) (s : AppState) :
  settled s → loading s = false → isComplete s = false →
  length (digits s) = 6%nat → 0 ≤ i < 6 →
  let s' := run (typeDigitAt i raw) s in
  (sanitize raw ≠ EmptyString →
     digits s' = <[Z.to_nat i := Some (sanitize raw)]> (digits s)
     ∧ (snd <$> renderBoxes s') !! Z.to_nat i = Some (sanitize raw)
     ∧ (∀ j, j ≠ Z.to_nat i →
          (snd <$> renderBoxes s') !! j = (snd <$> renderBoxes s) !! j)
     ∧ selection s' = mkSel (Z.min (i + 1) 5) (Z.min (i + 1) 5)
     ∧ loading s' = isComplete s')
  ∧ (sanitize raw = EmptyString → s' = setSelection (mkSel i i) s).
Proof.
  intros Hset Hl Hc Hlen Hi s'. split.
  - intros Hraw.
    destruct (run_typeDigitAt i raw s Hset Hl Hc Hlen Hi Hraw)
      as (Hd & Hs & Hl' & _).
    fold s' in Hd, Hs, Hl'. rewrite !render_text, Hd.
    split; [done|]. split; [|split; [|done]].
    + rewrite list_lookup_fmap, list_lookup_insert_eq by lia.
      cbn. by rewrite boxText_nonempty.
    + intros j Hj. rewrite !list_lookup_fmap.
      by rewrite list_lookup_insert_ne.
  - intros Hraw. subst s'. unfold typeDigitAt, run. cbn [foldl].
    rewrite step_SelectionChange_idle by done.
    rewrite !clamp_inside by lia.
    set (s1 := setSelection (mkSel i i) s).
    assert (Hd : dispatch (ChangeText raw) s1 = s1).
    { cbn [dispatch]. unfold handleChangeText. rewrite Hraw.
      by destruct (loading s1). }
    rewrite step_no_effect; rewrite ?Hd; [done| |done|done].
    by apply settled_setSelection.
Qed.

Lemma typeDigitAt_writes_one_box_witness :
  digits (run (typeDigitAt 3 "a8b") initial_state)
  = [Some EmptyString; Some EmptyString; Some EmptyString; Some "8"%string;
     Some EmptyString; Some EmptyString]
  ∧ run (typeDigitAt 3 "abc") initial_state
    = setSelection (mkSel 3 3) initial_state.
Proof.
  split.
  - refine (proj1 (proj1 (typeDigitAt_writes_one_box 3 "a8b" initial_state
                            _ _ _ _ _) _));
      try reflexivity; [vm_compute; split; [discriminate|reflexivity]
                       | discriminate].
  - refine (proj2 (typeDigitAt_writes_one_box 3 "abc" initial_state
                     _ _ _ _ _) _);
      try reflexivity. vm_compute; split; [discriminate|reflexivity].
Defined.

(** X7.  backspaceAt i on an idle, incomplete six-slot buffer, for i in
    0..5, empties slot i and touches nothing else in the state but the
    selection, which becomes (i, i): box i then shows a space, the buffer is
    incomplete, the status stays idle and no submission is started. *)
Theorem backspaceAt_never_submits (i : Z) (s : AppState) :
  settled s → loading s = false → isComplete s = false →
  length (digits s) = 6%nat → 0 ≤ i < 6 →
  let s' := run (backspaceAt i) s in
  s' = setDigits (<[Z.to_nat i := Some EmptyString]> (digits s))
         (setSelection (mkSel i i) s)
  ∧ (snd <$> renderBoxes s') !! Z.to_nat i = Some " "%string
  ∧ isComplete s' = false
  ∧ loading s' = false
  ∧ inflight s' = inflight s.
Proof.
  intros Hset Hl Hc Hlen Hi s'. subst s'.
  rewrite run_backspaceAt by done.
  split; [done|]. split; [|split; [|done]].
  - rewrite render_text. unfold_setters.
    rewrite list_lookup_fmap, list_lookup_insert_eq by lia. done.
  - unfold isComplete.
    rewrite (includes_empty_lookup _ (Z.to_nat i)); [apply andb_false_r|].
    unfold_setters. apply list_lookup_insert_eq. lia.
Qed.

Lemma backspaceAt_never_submits_witness :
  digits (run (backspaceAt 1)
            (run (typeDigitAt 0 "1" ++ typeDigitAt 1 "2") initial_state))
  = [Some "1"%string; Some EmptyString; Some EmptyString; Some EmptyString;
     Some EmptyString; Some EmptyString].
Proof.
  rewrite (proj1 (backspaceAt_never_submits 1
             (run (typeDigitAt 0 "1" ++ typeDigitAt 1 "2") initial_state)
             eq_refl eq_refl eq_refl eq_refl
             (conj (Z.le_0_1) eq_refl))).
  reflexivity.
Defined.

(** X8.  Typing into an empty slot and deleting at the same index undoes
    the typing, unless the typed digit completed the buffer: then the
    component is Submitting and backspaceAt changes nothing at all. *)
Theorem type_then_backspace (i : Z) (raw : string) (s : AppState) :
  settled s → loading s = false → isComplete s = false →
  length (digits s) = 6%nat → 0 ≤ i < 6 →
  sanitize raw ≠ EmptyString →
  digits s !! Z.to_nat i = Some (Some EmptyString) →
  let t := run (typeDigitAt i raw) s in
  (isComplete t = false → digits (run (backspaceAt i) t) = digits s)
  ∧ (isComplete t = true → run (backspaceAt i) t = t).
Proof.
  intros Hset Hl Hc Hlen Hi Hraw Hslot t.
  destruct (run_typeDigitAt i raw s Hset Hl Hc Hlen Hi Hraw)
    as (Hd & Hs & Hl' & Hset' & _).
  fold t in Hd, Hs, Hl', Hset'. split.
  - intros Hct. rewrite run_backspaceAt; try done.
    + unfold_setters. rewrite Hd, list_insert_insert_eq.
      by apply list_insert_id.
    + by rewrite Hl'.
    + by rewrite Hd, length_insert.
  - intros Hct. rewrite Hct in Hl'.
    destruct (submitting_guards t Hl') as (_ & H2 & H3 & _).
    unfold backspaceAt, run. cbn [foldl].
    assert (Hid : ∀ e, dispatch e t = t → step e t = t).
    { intros e He. rewrite step_no_effect; by rewrite ?He. }
    rewrite (Hid (SelectionChange i i)) by apply H3.
    apply Hid, H2.
Qed.

Lemma type_then_backspace_witness :
  digits (run (backspaceAt 2) (run (typeDigitAt 2 "5") initial_state))
  = digits initial_state.
Proof.
  refine (proj1 (type_then_backspace 2 "5" initial_state _ _ _ _ _ _ _) _);
    try reflexivity;
    [vm_compute; split; [discriminate|reflexivity] | discriminate].
Defined.

(** ** What every reachable state satisfies *)

Lemma run_effect_loading_mono s :
  loading s = true → loading (run_effect s) = true.
Proof.
  intros Hl. unfold run_effect. case_decide; [done|].
  unfold effect_body. unfold_setters. rewrite Hl, andb_false_r. done.
Qed.

Lemma run_effect_fires s :
  deps s ≠ (isComplete s, loading s) → isComplete s = true →
  loading (run_effect s) = true.
Proof.
  intros Hd Hc. unfold run_effect. rewrite decide_False by done.
  unfold effect_body. rewrite (isComplete_digits _ s) by done.
  rewrite Hc. unfold_setters. by destruct (loading s) eqn:Hl.
Qed.

Lemma step_complete_idle e s :
  settled s → isComplete (step e s) = true → loading (step e s) = false →
  isComplete s = true ∧ loading s = false.
Proof.
  intros Hset Hc Hl.
  rewrite (isComplete_digits _ (dispatch e s)) in Hc by apply step_digits.
  unfold step in Hl.
  destruct (decide (deps (dispatch e s)
                    = (isComplete (dispatch e s), loading (dispatch e s))))
    as [Heq|Hne].
  - rewrite !(run_effect_settled (dispatch e s)) in Hl by done.
    rewrite dispatch_deps, Hset, Hc, Hl in Heq. by injection Heq.
  - rewrite run_effect_loading_mono in Hl; [done|].
    by apply run_effect_fires.
Qed.

Lemma handleSubmit_begin_tracks s :
  loading s = false → inflight s = [] →
  submission_tracks_value (handleSubmit_begin s).
Proof.
  intros Hl Hi. left. split; [done|].
  unfold handleSubmit_begin. unfold_setters. by rewrite Hi.
Qed.

Lemma run_effect_tracks s :
  submission_tracks_value s → submission_tracks_value (run_effect s).
Proof.
  intros Hinv. unfold run_effect. case_decide; [done|].
  unfold effect_body.
  destruct (isComplete _ && negb (loading _)) eqn:Hg; [|done].
  apply andb_true_iff in Hg as [_ Hl%negb_true_iff].
  destruct Hinv as [[Hl' _]|[_ Hi]].
  - unfold_setters. congruence.
  - by apply handleSubmit_begin_tracks.
Qed.

Lemma dispatch_tracks e s :
  submission_tracks_value s → submission_tracks_value (dispatch e s).
Proof.
  intros Hinv. destruct e as [t|k|a b|i| | |ok|]; cbn [dispatch].
  - unfold handleChangeText. destruct (loading s) eqn:Hl; [done|].
    destruct (_ && _); [|done]. right.
    destruct Hinv as [[? _]|[_ Hi]]; [congruence|]. by unfold_setters.
  - unfold handleKeyPress. destruct (loading s) eqn:Hl; [done|].
    case_bool_decide; [|done]. destruct (_ && _); [|done]. right.
    destruct Hinv as [[? _]|[_ Hi]]; [congruence|]. by unfold_setters.
  - unfold handleSelectionChange. by destruct (loading s).
  - unfold handleBoxPress, focusInput. destruct (loading s) eqn:Hl; [done|].
    right. destruct Hinv as [[? _]|[_ Hi]]; [congruence|].
    destruct (_ && _); by unfold_setters.
  - unfold handleRowPress, focusInput.
    destruct (_ && _); unfold submission_tracks_value, value in *;
      by unfold_setters.
  - destruct (loading s) eqn:Hl; cbn [orb]; [done|].
    destruct (isComplete s); [done|].
    destruct Hinv as [[? _]|[_ Hi]]; [congruence|].
    by apply handleSubmit_begin_tracks.
  - destruct (inflight s) as [|v rest] eqn:Hi; [done|].
    destruct Hinv as [[_ Hw]|[_ ?]]; [|congruence].
    rewrite Hi in Hw. injection Hw as -> ->.
    right. by destruct ok.
  - destruct (timers s); [done|]. unfold refocus_callback.
    unfold submission_tracks_value, value in *. by unfold_setters.
Qed.

(** X9.  After any event sequence from the mounted state: a complete
    buffer is never left idle (if all six slots are filled the status is
    Submitting), and while the status is Submitting the one suspended
    submission carries exactly the code the boxes show. *)
Theorem complete_buffer_is_being_submitted (es : list event) :
  let s := run es initial_state in
  (isComplete s = true → loading s = true)
  ∧ (loading s = true → inflight s = [value s]).
Proof.
  cbv zeta.
  assert (H : (settled (run es initial_state)
               ∧ (isComplete (run es initial_state) = true →
                  loading (run es initial_state) = true))
              ∧ submission_tracks_value (run es initial_state)).
  { apply (run_invariant
      (λ s, (settled s ∧ (isComplete s = true → loading s = true))
            ∧ submission_tracks_value s)).
    - split; [split; [done|discriminate] | by right].
    - intros e s [[Hset Himp] Htr]. split; [split|].
      + apply step_settled.
      + intros Hc. destruct (loading (step e s)) eqn:Hl; [done|].
        destruct (step_complete_idle e s Hset Hc Hl) as [Hc' Hl'].
        rewrite Himp in Hl'; done.
      + unfold step. by apply run_effect_tracks, run_effect_tracks,
          dispatch_tracks. }
  destruct H as [[_ Himp] Htr]. split; [done|].
  intros Hl. destruct Htr as [[_ ?]|[? _]]; [done | congruence].
Qed.

Lemma complete_buffer_is_being_submitted_witness :
  loading (run (type_all_six ++ [RowPress; RefocusTimer]) initial_state) = true
  ∧ inflight (run (type_all_six ++ [RowPress; RefocusTimer]) initial_state)
    = [value (run (type_all_six ++ [RowPress; RefocusTimer]) initial_state)].
Proof.
  split.
  - apply (proj1 (complete_buffer_is_being_submitted
                    (type_all_six ++ [RowPress; RefocusTimer]))).
    vm_compute; reflexivity.
  - apply (proj2 (complete_buffer_is_being_submitted
                    (type_all_six ++ [RowPress; RefocusTimer]))).
    vm_compute; reflexivity.
Defined.

(** X10.  A submission that resolves, followed by the refocus callback,
    puts the component back in its mounted state whatever it looked like
    before: empty buffer, selection (0,0), idle, the effect at rest.  Only
    the focus of the hidden field (now set) and the alert log (one success
    alert more, quoting the value the submission carried) differ. *)
Theorem resolved_submission_remounts (s : AppState) (v : string)
    (rest : list string) :
  inflight s = v :: rest →
  run [SubmissionSettles true; RefocusTimer] s
  = mkState (digits initial_state) (selection initial_state) false true
            (success_message v :: alerts s) rest (timers s)
            (deps initial_state).
Proof.
  intros Hi. unfold run. cbn [foldl].
  set (d := dispatch (SubmissionSettles true) s).
  assert (Hd : d = mkState empty_digits (mkSel 0 0) false (focused s)
                     (success_message v :: alerts s) rest (S (timers s))
                     (deps s)).
  { subst d. cbn [dispatch]. by rewrite Hi. }
  assert (H1 : step (SubmissionSettles true) s = setDeps (false, false) d).
  { unfold step. fold d. rewrite Hd. unfold run_effect at 2.
    cbn [deps loading].
    rewrite (isComplete_empty_digits (mkState _ _ _ _ _ _ _ _)) by done.
    case_decide as Hdeps.
    - rewrite <- Hdeps. by rewrite run_effect_settled.
    - unfold effect_body.
      rewrite (isComplete_empty_digits (setDeps _ _)) by done.
      cbn [andb]. by rewrite run_effect_settled. }
  rewrite H1, Hd.
  rewrite step_no_effect; [done | done | done | done].
Qed.

Lemma resolved_submission_remounts_witness :
  digits (run [SubmissionSettles true; RefocusTimer]
            (run type_all_six initial_state)) = digits initial_state.
Proof.
  rewrite (resolved_submission_remounts (run type_all_six initial_state)
             "123456" [] eq_refl).
  reflexivity.
Defined.

(** ** Sequences of writes *)

Lemma truthy_nonempty (v : string) : v ≠ EmptyString → truthy (Some v) = true.
Proof. by destruct v. Qed.

Lemma applyWrites_filled ws d :
  Forall valid_write ws → filled d → filled (applyWrites ws d).
Proof.
  intros Hws. revert d. unfold applyWrites, filled.
  induction Hws as [|w ws [_ Hw] _ IH]; intros d Hd; [done|].
  cbn [foldl]. apply IH, Forall_insert; [done|]. by apply truthy_nonempty.
Qed.

Lemma applyWrites_buffer_ok ws d :
  Forall valid_write ws → buffer_ok d → buffer_ok (applyWrites ws d).
Proof.
  intros Hws. revert d. unfold applyWrites.
  induction Hws as [|w ws [_ Hw] _ IH]; intros d [Hlen Hall]; [done|].
  cbn [foldl]. apply IH. split; [by rewrite length_insert|].
  apply Forall_insert; [done|]. apply sanitize_digit_or_empty.
Qed.

Lemma incomplete_before_writes ws d s :
  Forall valid_write ws → buffer_ok d →
  isComplete (setDigits (applyWrites ws d) s) = false →
  isComplete (setDigits d s) = false.
Proof.
  intros Hws Hok Hc. destruct (isComplete (setDigits d s)) eqn:Hd; [|done].
  apply isComplete_filled in Hd; [|done]. cbn [setDigits digits] in Hd.
  apply (applyWrites_filled ws) in Hd; [|done].
  rewrite <- Hc. symmetry.
  apply isComplete_filled; [|done]. by apply applyWrites_buffer_ok.
Qed.

Lemma applyWrites_cons w ws d :
  applyWrites (w :: ws) d
  = applyWrites ws (<[Z.to_nat w.1 := Some (sanitize w.2)]> d).
Proof. reflexivity. Qed.

Lemma typeAll_cons w ws : typeAll (w :: ws) = typeDigitAt w.1 w.2 ++ typeAll ws.
Proof. reflexivity. Qed.

(** X11.  Digits typed with typeDigitAt at any positions 0..5, in any
    order and with repeats, land exactly where they were aimed: as long as
    the writes leave the buffer incomplete, the buffer afterwards is the
    buffer with the writes applied in order at their own indices (the last
    write to an index wins, nothing shifts), the status is idle and no
    submission was started. *)
Theorem typeAll_applies_writes (ws : list (Z * string)) (s : AppState) :
  settled s → loading s = false → buffer_ok (digits s) →
  Forall valid_write ws →
  isComplete (setDigits (applyWrites ws (digits s)) s) = false →
  digits (run (typeAll ws) s) = applyWrites ws (digits s)
  ∧ loading (run (typeAll ws) s) = false
  ∧ inflight (run (typeAll ws) s) = inflight s.
Proof.
  intros Hset Hl Hok Hws. revert s Hset Hl Hok.
  induction Hws as [|w ws Hw Hws IH]; intros s Hset Hl Hok Hc.
  { split; [reflexivity|]. split; [exact Hl | reflexivity]. }
  rewrite typeAll_cons, run_app. pose proof Hw as [Hi Hraw].
  pose proof Hok as [Hlen Hall].
  assert (Hcs : isComplete s = false).
  { rewrite (isComplete_digits s (setDigits (digits s) s)) by reflexivity.
    apply (incomplete_before_writes (w :: ws)); [|exact Hok|exact Hc].
    by constructor. }
  destruct (run_typeDigitAt w.1 w.2 s Hset Hl Hcs Hlen Hi Hraw)
    as (Hd & _ & Hl' & Hset' & Hin).
  rewrite applyWrites_cons in Hc |- *. rewrite <- Hd in Hc |- *.
  revert Hd Hl' Hset' Hin Hc.
  generalize (run (typeDigitAt w.1 w.2) s). intros t Hd Hl' Hset' Hin Hc.
  assert (Hokt : buffer_ok (digits t)).
  { rewrite Hd. split; [by rewrite length_insert|].
    apply Forall_insert; [exact Hall|]. apply sanitize_digit_or_empty. }
  assert (Hc' : isComplete (setDigits (applyWrites ws (digits t)) t) = false).
  { rewrite <- Hc. by apply isComplete_digits. }
  assert (Hct : isComplete t = false).
  { rewrite (isComplete_digits t (setDigits (digits t) t)) by reflexivity.
    by apply (incomplete_before_writes ws). }
  assert (Hlt : loading t = false) by congruence.
  destruct (IH t Hset' Hlt Hokt Hc') as (Hd2 & Hl2 & Hi2).
  rewrite Hd2, Hl2, Hi2, (Hin Hct). done.
Qed.

Lemma typeAll_applies_writes_witness :
  digits (run (typeAll [(4, "9"); (0, "x1"); (4, "7")]%string) initial_state)
  = [Some "1"%string; Some EmptyString; Some EmptyString; Some EmptyString;
     Some "7"%string; Some EmptyString].
Proof.
  refine (proj1 (typeAll_applies_writes [(4, "9"); (0, "x1"); (4, "7")]%string
                   initial_state _ _ _ _ _)); try reflexivity.
  - split; [reflexivity|]. repeat (constructor 2; [by left|]). constructor 1.
  - repeat (constructor 2;
            [split; [vm_compute; split; [discriminate|reflexivity]
                    | discriminate]|]).
    constructor 1.
Defined.

(** ** sanitize as a function on texts *)

Lemma sanitize_digit c r :
  is_digit c = true → sanitize (String c r) = String c EmptyString.
Proof.
  intros Hc. unfold sanitize. cbn [strip_non_digits]. rewrite Hc.
  by destruct (strip_non_digits r).
Qed.

Lemma sanitize_skip c r : is_digit c = false → sanitize (String c r) = sanitize r.
Proof. intros Hc. unfold sanitize. cbn [strip_non_digits]. by rewrite Hc. Qed.

Lemma append_cons c (a b : string) : String c a +:+ b = String c (a +:+ b).
Proof. reflexivity. Qed.

Lemma append_nil (b : string) : EmptyString +:+ b = b.
Proof. reflexivity. Qed.

(** X13.  sanitize returns the first digit of the text and nothing else:
    it is idempotent; a leading digit is the result whatever follows it and
    a leading non-digit is skipped; on a concatenation it is the result on
    the left part when that holds a digit and the result on the right part
    otherwise; and it is empty exactly for texts without any digit. *)
Theorem sanitize_first_digit :
  (∀ raw, sanitize (sanitize raw) = sanitize raw)
  ∧ (∀ c r, is_digit c = true → sanitize (String c r) = String c EmptyString)
  ∧ (∀ c r, is_digit c = false → sanitize (String c r) = sanitize r)
  ∧ (∀ a b, sanitize (a +:+ b)
            = if truthy_str (sanitize a) then sanitize a else sanitize b)
  ∧ (∀ raw, sanitize raw = EmptyString
            ↔ Forall (λ c, is_digit c = false) (list_ascii_of_string raw)).
Proof.
  split; [|split; [apply sanitize_digit|split; [apply sanitize_skip|split]]].
  - intros raw. destruct (sanitize_cases raw) as [->|(c & Hc & ->)]; [done|].
    by apply sanitize_digit.
  - intros a b. induction a as [|c a IH]; [by rewrite append_nil|].
    rewrite append_cons. destruct (is_digit c) eqn:Hc.
    + by rewrite !sanitize_digit.
    + by rewrite !sanitize_skip.
  - intros raw. induction raw as [|c r IH]; [done|].
    cbn [list_ascii_of_string]. destruct (is_digit c) eqn:Hc.
    + rewrite sanitize_digit by done. split; [done|].
      intros H. inversion H; congruence.
    + rewrite sanitize_skip by done. rewrite IH. split.
      * by constructor.
      * intros H. by inversion H.
Qed.

Lemma sanitize_first_digit_witness :
  sanitize "482913" = "4"%string ∧ sanitize " 7" = sanitize "7".
Proof.
  split.
  - apply (proj1 (proj2 sanitize_first_digit) "4"%char "82913"%string).
    reflexivity.
  - apply (proj1 (proj2 (proj2 sanitize_first_digit)) " "%char "7"%string).
    reflexivity.
Defined.

(** ** Typing without moving the caret *)

Lemma key_step c s L k L' k' b :
  settled s → loading s = false → digits s = L → selection s = mkSel k k →
  is_digit c = true →
  0 ≤ k < 6 → length L = 6%nat →
  isComplete (setDigits L initial_state) = false →
  <[Z.to_nat k := Some (String c EmptyString)]> L = L' →
  Z.min (k + 1) 5 = k' →
  isComplete (setDigits L' initial_state) = b →
  settled (step (ChangeText (String c EmptyString)) s)
  ∧ loading (step (ChangeText (String c EmptyString)) s) = b
  ∧ digits (step (ChangeText (String c EmptyString)) s) = L'
  ∧ selection (step (ChangeText (String c EmptyString)) s) = mkSel k' k'.
Proof.
  intros Hset Hl Hd Hs Hc Hk Hlen HcL HL' Hk' Hb.
  destruct (step_ChangeText_idle (String c EmptyString) s)
    as (Hd' & Hs' & Hl' & Hset' & _); try done.
  - by rewrite (isComplete_digits s (setDigits L initial_state)).
  - by rewrite Hd.
  - by rewrite Hs.
  - by rewrite sanitize_digit.
  - rewrite sanitize_digit in Hd' by done. rewrite Hs in Hd', Hs'.
    cbn [start] in Hd', Hs'. rewrite Hd, HL' in Hd'. rewrite Hk' in Hs'.
    split; [done|]. split; [|done].
    rewrite Hl', <- Hb. by apply isComplete_digits.
Qed.

Lemma run_typeKeys_cons c cs s :
  run (typeKeys (c :: cs)) s
  = run (typeKeys cs) (step (ChangeText (String c EmptyString)) s).
Proof. reflexivity. Qed.

Lemma run_typeKeys_locked cs s :
  settled s → loading s = true → run (typeKeys cs) s = s.
Proof.
  intros Hset Hl. induction cs as [|c cs IH]; [done|].
  rewrite run_typeKeys_cons.
  assert (step (ChangeText (String c EmptyString)) s = s) as ->; [|done].
  destruct (submitting_guards s Hl) as (H1 & _).
  assert (Hd : dispatch (ChangeText (String c EmptyString)) s = s)
    by (cbn [dispatch]; apply H1).
  rewrite step_no_effect; by rewrite ?Hd.
Qed.

(** X12.  Digits typed one after the other from the mounted state, with
    no selection event in between, fill the boxes from left to right: the
    first six keys occupy slots 0..5 in order, the caret follows them and
    stops at 5, the component is Submitting as soon as the sixth key is in,
    and every key after the sixth is ignored. *)
Theorem typeKeys_fill_left_to_right (cs : list ascii) :
  Forall (λ c, is_digit c = true) cs →
  let s := run (typeKeys cs) initial_state in
  digits s
  = ((λ c, Some (String c EmptyString)) <$> take 6 cs)
    ++ replicate (6 - length cs) (Some EmptyString)
  ∧ loading s = bool_decide (6 ≤ length cs)%nat
  ∧ start (selection s) = Z.min (Z.of_nat (length cs)) 5.
Proof.
  intros Hcs. cbv zeta.
  destruct cs as [|c0 cs]; [done|].
  apply Forall_cons in Hcs as [H0 Hcs]. rewrite run_typeKeys_cons.
  destruct (key_step c0 initial_state empty_digits 0
              [Some (String c0 EmptyString); Some EmptyString; Some EmptyString;
               Some EmptyString; Some EmptyString; Some EmptyString] 1 false)
    as (Hset1 & Hl1 & Hd1 & Hs1); try done.
  revert Hset1 Hl1 Hd1 Hs1.
  generalize (step (ChangeText (String c0 EmptyString)) initial_state).
  intros s1 Hset1 Hl1 Hd1 Hs1.
  destruct cs as [|c1 cs]; [cbn; by rewrite Hd1, Hl1, Hs1|].
  apply Forall_cons in Hcs as [H1 Hcs]. rewrite run_typeKeys_cons.
  destruct (key_step c1 s1 _ 1
              [Some (String c0 EmptyString); Some (String c1 EmptyString);
               Some EmptyString; Some EmptyString; Some EmptyString;
               Some EmptyString] 2 false Hset1 Hl1 Hd1 Hs1)
    as (Hset2 & Hl2 & Hd2 & Hs2); try done.
  revert Hset2 Hl2 Hd2 Hs2.
  generalize (step (ChangeText (String c1 EmptyString)) s1).
  intros s2 Hset2 Hl2 Hd2 Hs2.
  destruct cs as [|c2 cs]; [cbn; by rewrite Hd2, Hl2, Hs2|].
  apply Forall_cons in Hcs as [H2 Hcs]. rewrite run_typeKeys_cons.
  destruct (key_step c2 s2 _ 2
              [Some (String c0 EmptyString); Some (String c1 EmptyString);
               Some (String c2 EmptyString); Some EmptyString;
               Some EmptyString; Some EmptyString] 3 false Hset2 Hl2 Hd2 Hs2)
    as (Hset3 & Hl3 & Hd3 & Hs3); try done.
  revert Hset3 Hl3 Hd3 Hs3.
  generalize (step (ChangeText (String c2 EmptyString)) s2).
  intros s3 Hset3 Hl3 Hd3 Hs3.
  destruct cs as [|c3 cs]; [cbn; by rewrite Hd3, Hl3, Hs3|].
  apply Forall_cons in Hcs as [H3 Hcs]. rewrite run_typeKeys_cons.
  destruct (key_step c3 s3 _ 3
              [Some (String c0 EmptyString); Some (String c1 EmptyString);
               Some (String c2 EmptyString); Some (String c3 EmptyString);
               Some EmptyString; Some EmptyString] 4 false Hset3 Hl3 Hd3 Hs3)
    as (Hset4 & Hl4 & Hd4 & Hs4); try done.
  revert Hset4 Hl4 Hd4 Hs4.
  generalize (step (ChangeText (String c3 EmptyString)) s3).
  intros s4 Hset4 Hl4 Hd4 Hs4.
  destruct cs as [|c4 cs]; [cbn; by rewrite Hd4, Hl4, Hs4|].
  apply Forall_cons in Hcs as [H4 Hcs]. rewrite run_typeKeys_cons.
  destruct (key_step c4 s4 _ 4
              [Some (String c0 EmptyString); Some (String c1 EmptyString);
               Some (String c2 EmptyString); Some (String c3 EmptyString);
               Some (String c4 EmptyString); Some EmptyString] 5 false
              Hset4 Hl4 Hd4 Hs4)
    as (Hset5 & Hl5 & Hd5 & Hs5); try done.
  revert Hset5 Hl5 Hd5 Hs5.
  generalize (step (ChangeText (String c4 EmptyString)) s4).
  intros s5 Hset5 Hl5 Hd5 Hs5.
  destruct cs as [|c5 cs]; [cbn; by rewrite Hd5, Hl5, Hs5|].
  apply Forall_cons in Hcs as [H5 Hcs]. rewrite run_typeKeys_cons.
  destruct (key_step c5 s5 _ 5
              [Some (String c0 EmptyString); Some (String c1 EmptyString);
               Some (String c2 EmptyString); Some (String c3 EmptyString);
               Some (String c4 EmptyString); Some (String c5 EmptyString)] 5
              true Hset5 Hl5 Hd5 Hs5)
    as (Hset6 & Hl6 & Hd6 & Hs6); try done.
  rewrite run_typeKeys_locked by done.
  rewrite Hd6, Hl6, Hs6. cbn [length take fmap list_fmap start].
  split; [done|]. split.
  - symmetry. apply bool_decide_eq_true. lia.
  - lia.
Qed.

Lemma typeKeys_fill_left_to_right_witness :
  digits (run (typeKeys ["4"; "0"; "7"]%char) initial_state)
  = [Some "4"; Some "0"; Some "7"; Some EmptyString; Some EmptyString;
     Some EmptyString]%string.
Proof.
  refine (proj1 (typeKeys_fill_left_to_right ["4"; "0"; "7"]%char _)).
  repeat (constructor 2; [reflexivity|]). constructor 1.
Defined.

(** ** The write index in reachable states *)

Lemma reachable_shape (es : list event) :
  buffer_ok (digits (run es initial_state))
  ∧ sel_bounded (selection (run es initial_state)).
Proof.
  apply (run_invariant (λ s, buffer_ok (digits s) ∧ sel_bounded (selection s))).
  - split; [apply empty_digits_ok|]. unfold sel_bounded; cbn; lia.
  - intros e s [Hok Hsel]. rewrite step_digits, step_selection. split.
    + by apply dispatch_buffer_ok.
    + apply dispatch_sel_bounded; [apply Hok | done].
Qed.

(** X14.  handleChangeText has no lower bound on selection.start and
    handleKeyPress tests one that never fails: after any event sequence
    from the mounted state the start of the selection lies in 0..6.  So a
    text change, whatever the length of its text, either returns the state
    unchanged or replaces exactly one existing slot, the one at
    selection.start in 0..5, by a single digit; and a Backspace either
    returns the state unchanged or empties that one slot. *)
Theorem reachable_edit_hits_one_slot (es : list event) (raw : string) :
  let s := run es initial_state in
  let p := start (selection s) in
  0 ≤ p ≤ 6
  ∧ (handleChangeText raw s = s
     ∨ (0 ≤ p < 6
        ∧ digits (handleChangeText raw s)
          = <[Z.to_nat p := Some (sanitize raw)]> (digits s)
        ∧ String.length (sanitize raw) = 1%nat))
  ∧ (handleKeyPress "Backspace" s = s
     ∨ (0 ≤ p < 6
        ∧ digits (handleKeyPress "Backspace" s)
          = <[Z.to_nat p := Some EmptyString]> (digits s))).
Proof.
  cbv zeta. destruct (reachable_shape es) as [[Hlen _] [Hp _]].
  set (s := run es initial_state) in *. clearbody s.
  split; [done|]. split.
  - unfold handleChangeText. destruct (loading s); [by left|].
    destruct (truthy_str (sanitize raw) && _) eqn:Hg; [|by left].
    apply andb_true_iff in Hg as [Ht Hlt%Z.ltb_lt]. unfold OTP_LENGTH in Hlt.
    right. split; [lia|]. unfold_setters.
    rewrite array_set_inside by lia. split; [done|].
    destruct (sanitize_cases raw) as [Hr|(c & _ & Hr)]; rewrite Hr in *; done.
  - unfold handleKeyPress. destruct (loading s); [by left|].
    rewrite bool_decide_eq_true_2 by done.
    destruct (_ && _) eqn:Hg; [|by left].
    apply andb_true_iff in Hg as [_ Hlt%Z.ltb_lt]. unfold OTP_LENGTH in Hlt.
    right. split; [lia|]. unfold_setters.
    by rewrite array_set_inside by lia.
Qed.

(** ** The end of the selection *)

Lemma isComplete_with_end y s : isComplete (with_end y s) = isComplete s.
Proof. by apply isComplete_digits. Qed.

Lemma handleSubmit_begin_with_end y s :
  handleSubmit_begin (with_end y s) = with_end y (handleSubmit_begin s).
Proof. reflexivity. Qed.

Lemma dispatch_with_end e y s :
  ∃ y', dispatch e (with_end y s) = with_end y' (dispatch e s).
Proof.
  destruct e as [t|k|a b|i| | |ok|]; cbn [dispatch].
  - unfold handleChangeText.
    change (loading (with_end y s)) with (loading s).
    change (start (selection (with_end y s))) with (start (selection s)).
    destruct (loading s); [by exists y|].
    destruct (_ && _); [|by exists y]. by eexists.
  - unfold handleKeyPress.
    change (loading (with_end y s)) with (loading s).
    change (start (selection (with_end y s))) with (start (selection s)).
    destruct (loading s); [by exists y|].
    case_bool_decide; [|by exists y].
    destruct (_ && _); by exists y.
  - unfold handleSelectionChange.
    change (loading (with_end y s)) with (loading s).
    destruct (loading s); [by exists y|]. by eexists.
  - unfold handleBoxPress, focusInput.
    change (loading (with_end y s)) with (loading s).
    change (digits (with_end y s)) with (digits s).
    destruct (loading s); [by exists y|]. destruct (_ && _); by eexists.
  - unfold handleRowPress, focusInput.
    change (start (selection (with_end y s))) with (start (selection s)).
    destruct (_ && _); by eexists.
  - rewrite isComplete_with_end.
    change (loading (with_end y s)) with (loading s).
    destruct (loading s || isComplete s); by exists y.
  - change (inflight (with_end y s)) with (inflight s).
    destruct (inflight s); [by exists y|]. destruct ok.
    + by exists 0.
    + by exists y.
  - change (timers (with_end y s)) with (timers s).
    destruct (timers s); [by exists y|]. by exists 0.
Qed.

Lemma run_effect_with_end y s :
  run_effect (with_end y s) = with_end y (run_effect s).
Proof.
  unfold run_effect. rewrite isComplete_with_end.
  change (loading (with_end y s)) with (loading s).
  change (deps (with_end y s)) with (deps s).
  case_decide; [done|]. unfold effect_body.
  rewrite !(isComplete_digits (setDeps _ _) s) by done.
  change (loading (setDeps (isComplete s, loading s) (with_end y s)))
    with (loading s).
  change (loading (setDeps (isComplete s, loading s) s)) with (loading s).
  destruct (isComplete s && negb (loading s)); reflexivity.
Qed.

(** X15.  No handler and no effect ever reads selection.end: two states
    that differ only in the end of the selection go, under any event, to
    two states that differ at most in the end of the selection.  Buffer,
    caret start, status, alerts, focus and submissions are the same whether
    a box is fully selected or holds a collapsed caret. *)
Theorem selection_end_is_never_read (e : event) (y : Z) (s : AppState) :
  ∃ y', step e (with_end y s) = with_end y' (step e s).
Proof.
  destruct (dispatch_with_end e y s) as [y' Hd]. exists y'.
  unfold step. by rewrite Hd, !run_effect_with_end.
Qed.

(** ** What the boxes show *)

(** X16.  Box i carries the caret style exactly when the status is idle
    and selection.start is i.  Among the six boxes at most one is
    highlighted: exactly one when idle with selection.start in 0..5, none
    while Submitting and none when selection.start is 6 (a position the
    clamp allows and at which typing is ignored). *)
Theorem caret_box_unique (s : AppState) :
  length (digits s) = 6%nat →
  (∀ i b, renderBoxes s !! i = Some b →
     (boxCaret b.1 = true
      ↔ loading s = false ∧ start (selection s) = Z.of_nat i))
  ∧ length (List.filter (λ b, boxCaret b.1) (renderBoxes s))
    = (if negb (loading s) && (0 <=? start (selection s))
          && (start (selection s) <? 6)
       then 1%nat else 0%nat).
Proof.
  intros Hlen. split.
  - intros i [st txt] Hi. unfold renderBoxes in Hi.
    rewrite list_lookup_imap in Hi.
    destruct (digits s !! i); [|done]. injection Hi as <- _. cbn.
    rewrite andb_true_iff, bool_decide_eq_true, negb_true_iff. tauto.
  - unfold renderBoxes.
    destruct (digits s) as [|x0 [|x1 [|x2 [|x3 [|x4 [|x5 [|x6 r]]]]]]];
      try discriminate Hlen.
    cbn. destruct (loading s); cbn; [by rewrite !andb_false_r|].
    rewrite !andb_true_r.
    repeat case_bool_decide; cbn;
      destruct (Z.leb_spec 0 (start (selection s)));
      destruct (Z.ltb_spec (start (selection s)) 6); cbn; lia.
Qed.

Lemma caret_box_unique_witness :
  length (List.filter (λ b, boxCaret b.1)
            (renderBoxes (run [SelectionChange 9 9] initial_state))) = 0%nat
  ∧ length (List.filter (λ b, boxCaret b.1)
              (renderBoxes (run [SelectionChange 3 3] initial_state))) = 1%nat.
Proof.
  split.
  - rewrite (proj2 (caret_box_unique (run [SelectionChange 9 9] initial_state)
                      eq_refl)). reflexivity.
  - rewrite (proj2 (caret_box_unique (run [SelectionChange 3 3] initial_state)
                      eq_refl)). reflexivity.
Defined.

Lemma forallb_id_lookup (l : list bool) :
  forallb id l = true ↔ ∀ i b, l !! i = Some b → b = true.
Proof.
  rewrite forallb_forall. split.
  - intros H i b Hi. apply (H b), list_elem_of_In, list_elem_of_lookup.
    by exists i.
  - intros H b Hb. apply list_elem_of_In, list_elem_of_lookup in Hb as [i Hi].
    by apply (H i).
Qed.

Lemma is_digit_space : is_digit " " = false.
Proof. reflexivity. Qed.

Lemma boxText_inj (x : slot) (ch : string) :
  digit_or_empty x → digit_or_empty (Some ch) →
  (boxText x = (if truthy_str ch then ch else " "%string) ↔ x = Some ch).
Proof.
  intros [->|(c & Hc & ->)] [[= ->]|(c' & Hc' & [= ->])]; cbn.
  - done.
  - split; [|done]. intros [= <-]. rewrite is_digit_space in Hc'. done.
  - split; [|done]. intros [= ->]. rewrite is_digit_space in Hc. done.
  - split; [by intros [= ->] | by intros [= ->]].
Qed.

(** X17.  The rendered row determines the buffer: for a well-formed
    buffer and expected strings that are each empty or one digit,
    expectBoxToEqual of the test file succeeds exactly when every expected
    string is the content of the slot at its index.  A digit is never shown
    as the blank of an empty box, and a box that does not exist fails the
    check. *)
Theorem expectBoxToEqual_reads_buffer (arr : list string) (s : AppState) :
  buffer_ok (digits s) →
  Forall (λ ch, digit_or_empty (Some ch)) arr →
  (expectBoxToEqual arr s = true
   ↔ ∀ i ch, arr !! i = Some ch → digits s !! i = Some (Some ch)).
Proof.
  intros [_ Hall] Harr. unfold expectBoxToEqual.
  rewrite forallb_id_lookup, render_text. split.
  - intros H i ch Hi.
    specialize (H i _ ltac:(rewrite list_lookup_imap, Hi; reflexivity)).
    apply bool_decide_eq_true in H. rewrite list_lookup_fmap in H.
    destruct (digits s !! i) as [x|] eqn:Hx; [|done].
    injection H as H. f_equal.
    pose proof (Forall_lookup_1 _ _ _ _ Hall Hx) as Hdx.
    pose proof (Forall_lookup_1 _ _ _ _ Harr Hi) as Hdc.
    by apply (boxText_inj x ch Hdx Hdc).
  - intros H i b Hi. rewrite list_lookup_imap in Hi.
    destruct (arr !! i) as [ch|] eqn:Hch; [|done]. injection Hi as <-.
    apply bool_decide_eq_true. by rewrite list_lookup_fmap, (H i ch Hch).
Qed.

Lemma expectBoxToEqual_reads_buffer_witness :
  expectBoxToEqual ["1"; "2"; "3"; EmptyString; EmptyString; EmptyString]%string
    (run (typeDigitAt 0 "1" ++ typeDigitAt 1 "2" ++ typeDigitAt 2 "3")
         initial_state) = true.
Proof.
  apply (expectBoxToEqual_reads_buffer
           ["1"; "2"; "3"; EmptyString; EmptyString; EmptyString]%string
           (run (typeDigitAt 0 "1" ++ typeDigitAt 1 "2" ++ typeDigitAt 2 "3")
                initial_state)).
  - split; [reflexivity|].
    assert (digits (run (typeDigitAt 0 "1" ++ typeDigitAt 1 "2"
                         ++ typeDigitAt 2 "3") initial_state)
            = [Some "1"; Some "2"; Some "3"; Some EmptyString;
               Some EmptyString; Some EmptyString]%string) as -> by reflexivity.
    repeat (constructor 2; [right; eexists; split; [|reflexivity]; reflexivity|]).
    repeat (constructor 2; [by left|]). constructor 1.
  - repeat (constructor 2; [right; eexists; split; [|reflexivity]; reflexivity|]).
    repeat (constructor 2; [by left|]). constructor 1.
  - intros [|[|[|[|[|[|i]]]]]] ch [= <-]; reflexivity.
Defined.

(** ** The row tap and the alerts *)

Lemma reachable_settled (es : list event) : settled (run es initial_state).
Proof. apply (run_invariant settled); [done|]. intros e s _. apply step_settled. Qed.

(** X18.  After any event sequence, a tap on the row outside the boxes
    focuses the hidden field and collapses the selection onto its own start:
    the caret start, the buffer, the status and the submissions are
    untouched, and a second tap changes nothing more. *)
Theorem row_press_keeps_caret (es : list event) :
  let s := run es initial_state in
  let s' := step RowPress s in
  s' = setSelection (mkSel (start (selection s)) (start (selection s)))
         (setFocused true s)
  ∧ step RowPress s' = s'.
Proof.
  cbv zeta. destruct (reachable_shape es) as [_ [Hp _]].
  pose proof (reachable_settled es) as Hset.
  set (s := run es initial_state) in *. clearbody s.
  assert (Hrow : ∀ t, settled t → 0 ≤ start (selection t) ≤ 6 →
            step RowPress t
            = setSelection (mkSel (start (selection t)) (start (selection t)))
                (setFocused true t)).
  { intros t Ht Hpt.
    assert (Hd : dispatch RowPress t
            = setSelection (mkSel (start (selection t)) (start (selection t)))
                (setFocused true t)).
    { cbn [dispatch]. unfold handleRowPress, focusInput. cbn [andb].
      by rewrite clamp_inside. }
    rewrite step_no_effect; rewrite ?Hd; [done | done | | done].
    by apply isComplete_digits. }
  split; [by apply Hrow|].
  rewrite (Hrow s) by done. rewrite Hrow; [done | | done].
  unfold settled in *. by rewrite (isComplete_digits _ s).
Qed.

Lemma value_digit_code s : buffer_ok (digits s) → digit_code (value s).
Proof.
  intros Hok. pose proof Hok as [Hlen Hall]. split.
  - by apply join_all_digits.
  - unfold value. rewrite join_filled_length by done.
    pose proof (filter_truthy_length (digits s)) as [Hle _]. lia.
Qed.

(** X19.  Every alert the component ever raises is either the failure text
    or the success text followed by a code of at most six characters, all
    of them digits; the same holds for the value of every submission still
    in flight.  No character that sanitize would drop ever reaches a
    submission. *)
Theorem alerts_quote_digit_codes (es : list event) :
  Forall known_alert (alerts (run es initial_state))
  ∧ Forall digit_code (inflight (run es initial_state)).
Proof.
  assert (H : buffer_ok (digits (run es initial_state))
              ∧ Forall known_alert (alerts (run es initial_state))
              ∧ Forall digit_code (inflight (run es initial_state)));
    [|by destruct H as (_ & ? & ?)].
  apply (run_invariant (λ s, buffer_ok (digits s)
                             ∧ Forall known_alert (alerts s)
                             ∧ Forall digit_code (inflight s))).
  { split; [apply empty_digits_ok|]. split; constructor. }
  intros e s (Hok & Hal & Hin).
  assert (Hbegin : ∀ t, buffer_ok (digits t) → Forall known_alert (alerts t) →
            Forall digit_code (inflight t) →
            Forall known_alert (alerts (handleSubmit_begin t))
            ∧ Forall digit_code (inflight (handleSubmit_begin t))).
  { intros t Ht Hat Hit. split; [done|].
    unfold handleSubmit_begin. unfold_setters.
    apply Forall_app. split; [done|]. constructor; [|constructor].
    by apply value_digit_code. }
  assert (Heff : ∀ t, buffer_ok (digits t) → Forall known_alert (alerts t) →
            Forall digit_code (inflight t) →
            Forall known_alert (alerts (run_effect t))
            ∧ Forall digit_code (inflight (run_effect t))).
  { intros t Ht Hat Hit. unfold run_effect. case_decide; [done|].
    unfold effect_body. destruct (_ && _); [|done]. by apply Hbegin. }
  assert (Hd : Forall known_alert (alerts (dispatch e s))
               ∧ Forall digit_code (inflight (dispatch e s))).
  { destruct e as [t|k|a b|i| | |ok|]; cbn [dispatch].
    - unfold handleChangeText. destruct (loading s); [done|].
      by destruct (_ && _).
    - unfold handleKeyPress. destruct (loading s); [done|].
      case_bool_decide; [|done]. by destruct (_ && _).
    - unfold handleSelectionChange. by destruct (loading s).
    - unfold handleBoxPress, focusInput. destruct (loading s); [done|].
      by destruct (_ && _).
    - unfold handleRowPress, focusInput. by destruct (_ && _).
    - destruct (_ || _); [done|]. by apply Hbegin.
    - destruct (inflight s) as [|v rest] eqn:Hi; [by rewrite Hi|].
      apply Forall_cons in Hin as [Hv Hrest].
      unfold handleSubmit_resume. destruct ok; unfold_setters.
      + split; [|done]. constructor; [|done]. right. by exists v.
      + split; [|done]. constructor; [|done]. by left.
    - destruct (timers s); [done|]. by unfold refocus_callback. }
  destruct Hd as [Hd1 Hd2].
  pose proof (dispatch_buffer_ok e s Hok) as Hokd.
  split; [rewrite step_digits; done|]. unfold step.
  destruct (Heff _ Hokd Hd1 Hd2) as [He1 He2].
  apply Heff; [by rewrite run_effect_digits | done | done].
Qed.

(** ** Typing before the refocus callback has run *)

Lemma step_resolved s v rest :
  inflight s = v :: rest →
  step (SubmissionSettles true) s
  = mkState empty_digits (mkSel 0 0) false (focused s)
            (success_message v :: alerts s) rest (S (timers s)) (false, false).
Proof.
  intros Hi. unfold step.
  assert (Hd : dispatch (SubmissionSettles true) s
             = mkState empty_digits (mkSel 0 0) false (focused s)
                 (success_message v :: alerts s) rest (S (timers s)) (deps s)).
  { cbn [dispatch]. by rewrite Hi. }
  rewrite Hd. unfold run_effect at 2. cbn [deps loading].
  rewrite (isComplete_empty_digits (mkState _ _ _ _ _ _ _ _)) by done.
  case_decide as Hdeps.
  - rewrite <- Hdeps. by rewrite run_effect_settled.
  - unfold effect_body.
    rewrite (isComplete_empty_digits (setDeps _ _)) by done.
    cbn [andb]. by rewrite run_effect_settled.
Qed.

Lemma run_effect_timers s : timers (run_effect s) = timers s.
Proof.
  unfold run_effect. case_decide; [done|]. unfold effect_body.
  by destruct (_ && _).
Qed.

Lemma step_ChangeText_timers t s : timers (step (ChangeText t) s) = timers s.
Proof.
  unfold step. rewrite !run_effect_timers. cbn [dispatch].
  unfold handleChangeText. destruct (loading s); [done|].
  by destruct (_ && _).
Qed.

(** X20.  The callback of the finally block resets the caret without
    looking at what happened since: when a digit is typed after a submission
    resolved but before the refocus callback runs, the callback sends the
    caret back to box 0, and the next digit typed replaces the first one
    instead of landing in box 1. *)
Theorem refocus_callback_rewinds_caret (s : AppState) (v : string)
    (rest : list string) (c1 c2 : ascii) :
  inflight s = v :: rest →
  is_digit c1 = true → is_digit c2 = true →
  let s' := run [SubmissionSettles true; ChangeText (String c1 EmptyString);
                 RefocusTimer; ChangeText (String c2 EmptyString)] s in
  digits s' = [Some (String c2 EmptyString); Some EmptyString; Some EmptyString;
               Some EmptyString; Some EmptyString; Some EmptyString]
  ∧ selection s' = mkSel 1 1
  ∧ timers s' = timers s.
Proof.
  intros Hi H1 H2. cbv zeta. unfold run. cbn [foldl].
  rewrite (step_resolved s v rest Hi).
  set (s1 := mkState _ _ _ _ _ _ _ _).
  destruct (key_step c1 s1 empty_digits 0
              [Some (String c1 EmptyString); Some EmptyString; Some EmptyString;
               Some EmptyString; Some EmptyString; Some EmptyString] 1 false)
    as (Hset2 & Hl2 & Hd2 & Hs2); try done.
  assert (Ht2 : timers (step (ChangeText (String c1 EmptyString)) s1)
                = S (timers s)) by (by rewrite step_ChangeText_timers).
  revert Hset2 Hl2 Hd2 Hs2 Ht2.
  generalize (step (ChangeText (String c1 EmptyString)) s1).
  intros s2 Hset2 Hl2 Hd2 Hs2 Ht2.
  assert (H3 : step RefocusTimer s2
               = refocus_callback (setTimers (timers s) s2)).
  { assert (Hd : dispatch RefocusTimer s2
                 = refocus_callback (setTimers (timers s) s2))
      by (cbn [dispatch]; by rewrite Ht2).
    rewrite step_no_effect; rewrite ?Hd; [done | done | | done].
    by apply isComplete_digits. }
  rewrite H3.
  set (s3 := refocus_callback (setTimers (timers s) s2)).
  assert (Hset3 : settled s3).
  { unfold settled in *. subst s3.
    rewrite (isComplete_digits _ s2) by done. exact Hset2. }
  assert (Hl3 : loading s3 = false) by exact Hl2.
  assert (Hd3 : digits s3 = [Some (String c1 EmptyString); Some EmptyString;
                             Some EmptyString; Some EmptyString;
                             Some EmptyString; Some EmptyString])
    by exact Hd2.
  assert (Hs3 : selection s3 = mkSel 0 0) by reflexivity.
  assert (Ht3 : timers s3 = timers s) by reflexivity.
  clearbody s3.
  destruct (key_step c2 s3
              [Some (String c1 EmptyString); Some EmptyString; Some EmptyString;
               Some EmptyString; Some EmptyString; Some EmptyString] 0
              [Some (String c2 EmptyString); Some EmptyString; Some EmptyString;
               Some EmptyString; Some EmptyString; Some EmptyString] 1 false)
    as (Hset4 & Hl4 & Hd4 & Hs4); try done.
  split; [done|]. split; [done|]. by rewrite step_ChangeText_timers.
Qed.

Lemma refocus_callback_rewinds_caret_witness :
  digits (run [SubmissionSettles true; ChangeText "1"; RefocusTimer;
               ChangeText "2"] (run type_all_six initial_state))
  = [Some "2"%string; Some EmptyString; Some EmptyString; Some EmptyString;
     Some EmptyString; Some EmptyString].
Proof.
  refine (proj1 (refocus_callback_rewinds_caret
                   (run type_all_six initial_state) "123456" [] "1" "2"
                   _ _ _)); reflexivity.
Defined.
